(** * MathAI: the math-explainer video pipeline of [main.py]

    A shallow embedding of [MathScene.construct] and of the [MathTutor]
    pipeline ([__init__], [generate_explanation], [create_narration],
    [create_video], [main]).  Python values returned by [json.loads] are an
    inductive type; exceptions are values of an error monad; the file
    system, standard output and the calls made to the outside (language
    model, rendering engine, speech service, [ffmpeg]) live in an explicit
    process state.  The outside itself is a record of functions, [World]. *)

From Stdlib Require Import ZArith QArith List String Ascii Lia.
From stdpp Require Import base option list strings pretty gmap fin_maps.

Local Open Scope Z_scope.
Local Open Scope string_scope.
Local Open Scope list_scope.

(** ** Python values and exceptions *)

(** What [json.loads] can return. *)
#[warnings="-register-all"]
Inductive pyval :=
| PNone
| PBool (b : bool)
| PInt (n : Z)
| PFloat (literal : string)
| PStr (s : string)
| PList (items : list pyval)
| PDict (items : list (string * pyval)).

(** The exception classes that occur.  [JSONDecodeError] is a subclass of
    [ValueError], [FileNotFoundError] of [OSError]; [LibraryError] stands for
    the error classes of the client libraries, which all derive from
    [Exception].  The last three derive from [BaseException] only. *)
Inductive exn_class :=
| ValueError
| JSONDecodeError
| KeyError
| IndexError
| TypeError
| FileNotFoundError
| EOFError
| LibraryError (name : string)
| KeyboardInterrupt
| SystemExit
| GeneratorExit.

Record exn := Exn { exn_class_of : exn_class; exn_str : string }.

(** [isinstance(e, Exception)]. *)
Definition is_Exception (e : exn) : bool :=
  match exn_class_of e with
  | KeyboardInterrupt | SystemExit | GeneratorExit => false
  | _ => true
  end.

Inductive result (A : Type) :=
| Return (a : A)
| Raise (e : exn).
Arguments Return {A} a.
Arguments Raise {A} e.

(** ** A state monad with exceptions *)

Definition M (S A : Type) : Type := S -> S * result A.

Definition ret {S A} (a : A) : M S A := fun s => (s, Return a).

Definition raise {S A} (e : exn) : M S A := fun s => (s, Raise e).

Definition bind {S A B} (c : M S A) (k : A -> M S B) : M S B :=
  fun s =>
    match c s with
    | (s', Return a) => k a s'
    | (s', Raise e) => (s', Raise e)
    end.

Definition lift {S A} (r : result A) : M S A := fun s => (s, r).

Definition modify {S} (f : S -> S) : M S unit := fun s => (f s, Return tt).

Notation "x <- c ;; k" := (bind c (fun x => k))
  (at level 100, c at next level, right associativity).
Notation "c ;;; k" := (bind c (fun _ => k))
  (at level 100, right associativity).

(** [try: body except Exception as e: handler(e)].  An exception that is not
    an instance of [Exception] passes through. *)
Definition try_except_Exception {S A} (body : M S A) (handler : exn -> M S A)
  : M S A :=
  fun s =>
    match body s with
    | (s', Return a) => (s', Return a)
    | (s', Raise e) => if is_Exception e then handler e s' else (s', Raise e)
    end.

(** [for x in xs: l = body(l, x)], the loop's local variables threaded
    through as [l]. *)
Fixpoint for_loop {S L X} (body : L -> X -> M S L) (xs : list X) (l : L)
  : M S L :=
  match xs with
  | [] => ret l
  | x :: xs' => l' <- body l x ;; for_loop body xs' l'
  end.

(** ** Python's dynamic operations on a parsed value *)

Definition quote (s : string) : string := "'" +:+ s +:+ "'".

Definition type_name (v : pyval) : string :=
  match v with
  | PNone => "NoneType"
  | PBool _ => "bool"
  | PInt _ => "int"
  | PFloat _ => "float"
  | PStr _ => "str"
  | PList _ => "list"
  | PDict _ => "dict"
  end.

Fixpoint chars (s : string) : list pyval :=
  match s with
  | EmptyString => []
  | String c s' => PStr (String c EmptyString) :: chars s'
  end.

(** [iter(v)] run to the end: a list yields its items, a dict its keys, a
    string its characters; the other values are not iterable. *)
Definition py_iter (v : pyval) : result (list pyval) :=
  match v with
  | PList items => Return items
  | PDict items => Return (map (fun kv => PStr (fst kv)) items)
  | PStr s => Return (chars s)
  | _ => Raise (Exn TypeError
                  (quote (type_name v) +:+ " object is not iterable"))
  end.

Fixpoint dict_get (items : list (string * pyval)) (key : string)
  : option pyval :=
  match items with
  | [] => None
  | (k, v) :: rest => if String.eqb k key then Some v else dict_get rest key
  end.

(** [v[key]] for a string [key]. *)
Definition py_getitem (v : pyval) (key : string) : result pyval :=
  match v with
  | PDict items =>
      match dict_get items key with
      | Some x => Return x
      | None => Raise (Exn KeyError (quote key))
      end
  | PStr _ => Raise (Exn TypeError "string indices must be integers")
  | PList _ =>
      Raise (Exn TypeError "list indices must be integers or slices, not str")
  | _ => Raise (Exn TypeError
                  (quote (type_name v) +:+ " object is not subscriptable"))
  end.

(** [sep.join(items)]: every item must be a [str]; the pieces are appended
    left to right, the separator before every piece but the first. *)
Fixpoint join_check (items : list pyval) (i : nat) : result (list string) :=
  match items with
  | [] => Return []
  | PStr s :: rest =>
      match join_check rest (S i) with
      | Return ss => Return (s :: ss)
      | Raise e => Raise e
      end
  | v :: _ =>
      Raise (Exn TypeError
               ("sequence item " +:+ pretty (Z.of_nat i)
                +:+ ": expected str instance, " +:+ type_name v +:+ " found"))
  end.

Definition join_append (sep : string) (acc : string * bool) (piece : string)
  : string * bool :=
  let '(buf, first) := acc in
  ((if first then buf else buf +:+ sep) +:+ piece, false).

Definition str_join (sep : string) (items : list pyval) : result string :=
  match join_check items 0 with
  | Return pieces => Return (fst (fold_left (join_append sep) pieces ("", true)))
  | Raise e => Raise e
  end.

(** ** The data model of the specification *)

Record Step := mkStep {
  equation : string;
  explanation : string;
  narration : string
}.

(** A [Step] as the dict [json.loads] builds for it. *)
Definition step_value (s : Step) : pyval :=
  PDict [("equation", PStr (equation s));
         ("explanation", PStr (explanation s));
         ("narration", PStr (narration s))].

(** A StepSequence as the list [json.loads] builds for it. *)
Definition steps_value (l : list Step) : pyval := PList (map step_value l).

(** ** The animation engine's objects, as [construct] builds them *)

Record vec := Vec { vx : Z; vy : Z; vz : Z }.

Definition ORIGIN : vec := Vec 0 0 0.
Definition UP : vec := Vec 0 1 0.
Definition DOWN : vec := Vec 0 (-1) 0.
Definition RIGHT : vec := Vec 1 0 0.

(** [v * k] and [v + w] on the engine's direction vectors. *)
Definition vscale (v : vec) (k : Z) : vec := Vec (vx v * k) (vy v * k) (vz v * k).
Definition vadd (v w : vec) : vec := Vec (vx v + vx w) (vy v + vy w) (vz v + vz w).

Inductive color := BLUE.

(** A mobject is the term of the calls that built it: a constructor of the
    engine ([MathTex], [Text], [Arrow]) followed by the placement methods
    called on it ([shift], [next_to]).  A point is what [get_bottom] returns,
    possibly moved by a vector; its coordinates depend on the typeset size
    and stay symbolic. *)
Inductive mobject :=
| MathTex (tex : pyval)
| Text (text : pyval) (font_size : Z)
| Arrow (start end_ : point) (c : color)
| shift (m : mobject) (v : vec)
| next_to (m target : mobject) (direction : vec) (buff : Q)
with point :=
| get_bottom (m : mobject)
| padd (p : point) (v : vec).

Inductive animation :=
| Write (m : mobject)
| Create (m : mobject).

(** What the scene has been asked to show, in order: [self.play(a)] and
    [self.wait(d)]. *)
Inductive event :=
| Play (a : animation)
| Wait (duration : Z).

Record Scene := mkScene { timeline : list event }.

Definition play (a : animation) : M Scene unit :=
  modify (fun sc => mkScene (timeline sc ++ [Play a])).

Definition wait (duration : Z) : M Scene unit :=
  modify (fun sc => mkScene (timeline sc ++ [Wait duration])).

(** ** [MathScene] *)

Record MathScene := mkMathScene { steps : pyval }.

(** The local variables of [construct]; a tuple of [all_equations] is the
    list of its components. *)
Record locals := mkLocals {
  current_y : Z;
  all_equations : list (list mobject)
}.

(** One pass through the body of [for step in self.steps]. *)
Definition construct_step (l : locals) (step : pyval) : M Scene locals :=
  tex <- lift (py_getitem step "equation") ;;
  let eq := shift (MathTex tex) (vscale UP (current_y l)) in
  txt <- lift (py_getitem step "explanation") ;;
  let explanation := next_to (Text txt 24) eq RIGHT (1 # 2) in
  play (Write eq) ;;;
  play (Write explanation) ;;;
  let all_equations1 := all_equations l ++ [[eq; explanation]] in
  let current_y1 := current_y l - 1 in
  all_equations2 <-
    (if current_y1 >? -3 then
       let arrow := Arrow (get_bottom eq) (padd (get_bottom eq) DOWN) BLUE in
       play (Create arrow) ;;;
       ret (all_equations1 ++ [[arrow]])
     else ret all_equations1) ;;
  wait 2 ;;;
  ret (mkLocals current_y1 all_equations2).

Definition construct (self : MathScene) : M Scene unit :=
  let current_y := 3 in
  let all_equations := [] in
  items <- lift (py_iter (steps self)) ;;
  for_loop construct_step items (mkLocals current_y all_equations) ;;;
  wait 2.

(** *** Reading a timeline *)

Inductive kind := Equation | Explanation | ArrowMark.

(** The engine constructor a mobject was built with. *)
Fixpoint kind_of (m : mobject) : kind :=
  match m with
  | MathTex _ => Equation
  | Text _ _ => Explanation
  | Arrow _ _ _ => ArrowMark
  | shift m' _ => kind_of m'
  | next_to m' _ _ _ => kind_of m'
  end.

Definition kind_eqb (a b : kind) : bool :=
  match a, b with
  | Equation, Equation | Explanation, Explanation | ArrowMark, ArrowMark => true
  | _, _ => false
  end.

(** The mobjects animated into view, in order. *)
Fixpoint shown (tl : list event) : list mobject :=
  match tl with
  | [] => []
  | Play (Write m) :: tl' => m :: shown tl'
  | Play (Create m) :: tl' => m :: shown tl'
  | Wait _ :: tl' => shown tl'
  end.

Definition elements (k : kind) (tl : list event) : list mobject :=
  filter (fun m => kind_eqb (kind_of m) k = true) (shown tl).

Definition count (k : kind) (tl : list event) : nat := length (elements k tl).

(** The pauses of a timeline, in order. *)
Fixpoint pauses (tl : list event) : list Z :=
  match tl with
  | [] => []
  | Wait d :: tl' => d :: pauses tl'
  | Play _ :: tl' => pauses tl'
  end.

(** Where the centre of a mobject is, when the calls that built it fix it: a
    fresh [MathTex] or [Text] is centred on [ORIGIN], [shift] moves it. *)
Fixpoint center (m : mobject) : option vec :=
  match m with
  | MathTex _ | Text _ _ => Some ORIGIN
  | shift m' v => (fun c => vadd c v) <$> center m'
  | _ => None
  end.

(** The timeline cut at its pauses: what was animated since the previous
    pause, with the length of the pause that follows. *)
Fixpoint frames_from (cur : list mobject) (tl : list event)
  : list (list mobject * Z) :=
  match tl with
  | [] => []
  | Play (Write m) :: tl' => frames_from (cur ++ [m]) tl'
  | Play (Create m) :: tl' => frames_from (cur ++ [m]) tl'
  | Wait d :: tl' => (cur, d) :: frames_from [] tl'
  end.

Definition frames (tl : list event) : list (list mobject * Z) :=
  frames_from [] tl.

Definition is_arrow (m : mobject) : bool := kind_eqb (kind_of m) ArrowMark.

(** A frame without its arrows. *)
Definition without_arrows (f : list mobject * Z) : list mobject * Z :=
  (filter (fun m => is_arrow m = false) (fst f), snd f).

(** The timeline [construct] leaves when run on a fresh scene. *)
Definition rendered (v : pyval) : list event :=
  timeline (fst (construct (mkMathScene v) (mkScene []))).

Definition sample_step : Step :=
  mkStep "x+1=2" "subtract 1" "We subtract one from both sides.".

(** ** The process and the outside world *)

(** A call that leaves the program: to the terminal, the language model,
    the rendering engine, the speech service or a subprocess. *)
Inductive call :=
| CallInput (prompt : string)
| CallChatCompletion (model : string) (messages : list (string * string))
| CallRender (tl : list event)
| CallGenerate (text voice model : string)
| CallSave (audio filename : string)
| CallSubprocess (argv : list string).

(** The mutable state a run works on: the files of the working directory
    (path to content), what was written to standard output, the calls made
    so far, and the module attribute [openai.api_key]. *)
Record Process := mkProcess {
  fs : gmap string string;
  stdout : list string;
  calls : list call;
  openai_api_key_attr : option string
}.

Definition with_fs (f : gmap string string) (p : Process) : Process :=
  mkProcess f (stdout p) (calls p) (openai_api_key_attr p).

Definition with_call (c : call) (p : Process) : Process :=
  mkProcess (fs p) (stdout p) (calls p ++ [c]) (openai_api_key_attr p).

Definition with_output (s : string) (p : Process) : Process :=
  mkProcess (fs p) (stdout p ++ [s]) (calls p) (openai_api_key_attr p).

Definition with_api_key (k : option string) (p : Process) : Process :=
  mkProcess (fs p) (stdout p) (calls p) k.

(** How everything outside [main.py] behaves during one run.  Each service
    may return or raise; those that touch the disk transform the files. *)
Record World := mkWorld {
  (** [os.getenv] *)
  getenv : string -> option string;
  (** the line [input] reads *)
  input_line : result string;
  (** [openai.ChatCompletion.create]: the [message.content] of each of the
      response's [choices] *)
  chat_completion : string -> list (string * string) -> result (list string);
  (** [json.loads] *)
  json_loads : string -> result pyval;
  (** what the engine does with the animations played, given how
      [construct] ended: the files it leaves and whether encoding fails *)
  engine_output : list event -> result unit -> gmap string string
                  -> gmap string string * result unit;
  (** [elevenlabs.generate] *)
  generate : string -> string -> string -> result string;
  (** [elevenlabs.save] *)
  save : string -> string -> gmap string string
         -> gmap string string * result unit;
  (** [subprocess.run]: the files afterwards and the exit status, or the
      exception when the program cannot be started *)
  run : list string -> gmap string string -> gmap string string * result Z
}.

Definition LF : string := String "010"%char EmptyString.

(** [print(s)] *)
Definition print (s : string) : M Process unit :=
  modify (with_output (s +:+ LF)).

(** [input(prompt)] *)
Definition input (w : World) (prompt : string) : M Process string :=
  fun p => (with_call (CallInput prompt) (with_output prompt p), input_line w).

(** A call to a service that does not touch the disk. *)
Definition external {A} (c : call) (r : result A) : M Process A :=
  fun p => (with_call c p, r).

(** A call to a service that works on the files. *)
Definition external_fs {A} (c : call)
  (f : gmap string string -> gmap string string * result A) : M Process A :=
  fun p => let '(files, r) := f (fs p) in (with_fs files (with_call c p), r).

(** [os.remove(path)] *)
Definition os_remove (path : string) : M Process unit :=
  fun p =>
    match fs p !! path with
    | Some _ => (with_fs (delete path (fs p)) p, Return tt)
    | None =>
        (p, Raise (Exn FileNotFoundError
                     ("[Errno 2] No such file or directory: " +:+ quote path)))
    end.

(** [xs[0]] on a list *)
Definition first_item {A} (xs : list A) : result A :=
  match xs with
  | x :: _ => Return x
  | [] => Raise (Exn IndexError "list index out of range")
  end.

(** The items of a generator expression [f(x) for x in xs], drawn in order
    until one raises. *)
Fixpoint generate_items {A B} (f : A -> result B) (xs : list A)
  : result (list B) :=
  match xs with
  | [] => Return []
  | x :: xs' =>
      match f x with
      | Raise e => Raise e
      | Return y =>
          match generate_items f xs' with
          | Raise e => Raise e
          | Return ys => Return (y :: ys)
          end
      end
  end.

(** [bool(v)], [not v] and [str(v)] for a value that is a string or [None] *)
Definition py_bool (v : option string) : bool :=
  match v with
  | None => false
  | Some s => negb (String.eqb s "")
  end.

Definition py_not (v : option string) : bool := negb (py_bool v).

Definition py_str (v : option string) : string :=
  match v with
  | None => "None"
  | Some s => s
  end.

(** ** [MathScene.render], inherited from the engine *)

(** The engine runs [construct] on the fresh scene and encodes what was
    played.  An exception of [construct] leaves [render] as it is; otherwise
    the outcome is the encoder's. *)
Definition Scene_render (w : World) (scene : MathScene) : M Process unit :=
  fun p =>
    let '(sc, built) := construct scene (mkScene []) in
    let '(files, encoded) := engine_output w (timeline sc) built (fs p) in
    (with_fs files (with_call (CallRender (timeline sc)) p),
     match built with
     | Raise e => Raise e
     | Return _ => encoded
     end).

(** ** [MathTutor] *)

Record MathTutor := mkMathTutor {
  openai_api_key : option string;
  elevenlabs_api_key : option string
}.

Definition MathTutor_init (w : World) : M Process MathTutor :=
  let openai_api_key := getenv w "OPENAI_API_KEY" in
  let elevenlabs_api_key := getenv w "ELEVENLABS_API_KEY" in
  if py_not openai_api_key || py_not elevenlabs_api_key then
    raise (Exn ValueError "API keys for OpenAI and ElevenLabs are required")
  else
    modify (with_api_key openai_api_key) ;;;
    ret (mkMathTutor openai_api_key elevenlabs_api_key).

(** The f-string of [generate_explanation]. *)
Definition prompt_for (question : string) : string :=
  LF +:+ "        Explain this math problem step by step:" +:+ LF
  +:+ "        " +:+ question +:+ LF
  +:+ "        " +:+ LF
  +:+ "        Format your response as a JSON array with each step containing:"
  +:+ LF
  +:+ "        1. equation: The mathematical equation for this step" +:+ LF
  +:+ "        2. explanation: A clear explanation of what's happening" +:+ LF
  +:+ "        3. narration: Voice-over text for this step" +:+ LF
  +:+ "        ".

Definition generate_explanation (w : World) (self : MathTutor)
  (question : string) : M Process pyval :=
  let prompt := prompt_for question in
  let messages := [("user", prompt)] in
  response <- external (CallChatCompletion "gpt-4" messages)
                (chat_completion w "gpt-4" messages) ;;
  content <- lift (first_item response) ;;
  lift (json_loads w content).

(** The text [create_narration] hands to the speech service. *)
Definition full_narration (steps : pyval) : result string :=
  match py_iter steps with
  | Raise e => Raise e
  | Return items =>
      match generate_items (fun step => py_getitem step "narration") items with
      | Raise e => Raise e
      | Return pieces => str_join " " pieces
      end
  end.

Definition create_narration (w : World) (self : MathTutor) (steps : pyval)
  : M Process string :=
  text <- lift (full_narration steps) ;;
  let voice := "Bella" in
  let model := "eleven_multilingual_v1" in
  audio <- external (CallGenerate text voice model)
             (generate w text voice model) ;;
  let audio_path := "narration.mp3" in
  external_fs (CallSave audio audio_path) (save w audio audio_path) ;;;
  ret audio_path.

Definition ffmpeg_argv (scene_path audio_path output_path : string)
  : list string :=
  ["ffmpeg"; "-y"; "-i"; scene_path; "-i"; audio_path;
   "-c:v"; "copy"; "-c:a"; "aac"; output_path].

(** The [try] block of [create_video]. *)
Definition create_video_body (w : World) (self : MathTutor)
  (question : string) : M Process (option string) :=
  steps <- generate_explanation w self question ;;
  let scene := mkMathScene steps in
  let scene_path := "math_scene.mp4" in
  Scene_render w scene ;;;
  audio_path <- create_narration w self steps ;;
  let output_path := "final_explanation.mp4" in
  external_fs (CallSubprocess (ffmpeg_argv scene_path audio_path output_path))
    (run w (ffmpeg_argv scene_path audio_path output_path)) ;;;
  os_remove scene_path ;;;
  os_remove audio_path ;;;
  ret (Some output_path).

(** [create_video]: [None] is Python's [None], [Some path] a string. *)
Definition create_video (w : World) (self : MathTutor) (question : string)
  : M Process (option string) :=
  try_except_Exception
    (create_video_body w self question)
    (fun e => print ("Error creating video: " +:+ exn_str e) ;;; ret None).

Definition main (w : World) : M Process unit :=
  tutor <- MathTutor_init w ;;
  question <- input w "Enter your math question: " ;;
  print "Generating video explanation..." ;;;
  video_path <- create_video w tutor question ;;
  if py_bool video_path then
    print ("Explanation video created: " +:+ py_str video_path)
  else
    print "Failed to create explanation video".

(** ** Test doubles

    A world in which every service works: the model answers with the
    one-step sequence, the engine and the speech service write the files
    [create_video] expects, and the muxer writes the final file. *)

Definition json_string (s : string) : string :=
  String "034"%char EmptyString +:+ s +:+ String "034"%char EmptyString.

Definition sample_response : string :=
  "[{" +:+ json_string "equation" +:+ ": " +:+ json_string "x+1=2" +:+ ", "
  +:+ json_string "explanation" +:+ ": " +:+ json_string "subtract 1" +:+ ", "
  +:+ json_string "narration" +:+ ": "
  +:+ json_string "We subtract one from both sides." +:+ "}]".

Definition working_world : World := {|
  getenv := fun name =>
    if String.eqb name "OPENAI_API_KEY" then Some "sk-test"
    else if String.eqb name "ELEVENLABS_API_KEY" then Some "el-test"
    else None;
  input_line := Return "Solve x+1=2";
  chat_completion := fun _ _ => Return [sample_response];
  json_loads := fun text =>
    if String.eqb text sample_response then Return (steps_value [sample_step])
    else Raise (Exn JSONDecodeError "Expecting value: line 1 column 1 (char 0)");
  engine_output := fun _ built files =>
    match built with
    | Return _ => (<["math_scene.mp4" := "video"]> files, Return tt)
    | Raise _ => (files, Return tt)
    end;
  generate := fun text _ _ => Return ("speech:" +:+ text);
  save := fun audio filename files => (<[filename := audio]> files, Return tt);
  run := fun argv files =>
    (<["final_explanation.mp4" := "video+audio"]> files, Return 0)
|}.

Definition sample_tutor : MathTutor := mkMathTutor (Some "sk-test") (Some "el-test").

Definition fresh : Process := mkProcess ∅ [] [] None.

(** The engine leaves its video under its own media directory, not at
    [math_scene.mp4], so the muxer finds no input and exits with status 1
    without writing anything. *)
Definition missing_video_world : World := {|
  getenv := getenv working_world;
  input_line := input_line working_world;
  chat_completion := chat_completion working_world;
  json_loads := json_loads working_world;
  engine_output := fun _ _ files =>
    (<["media/videos/1080p60/MathScene.mp4" := "video"]> files, Return tt);
  generate := generate working_world;
  save := save working_world;
  run := fun _ files => (files, Return 1)
|}.

(** Both intermediate files are there, but the muxer exits with status 1
    and writes no output file. *)
Definition failing_mux_world : World := {|
  getenv := getenv working_world;
  input_line := input_line working_world;
  chat_completion := chat_completion working_world;
  json_loads := json_loads working_world;
  engine_output := engine_output working_world;
  generate := generate working_world;
  save := save working_world;
  run := fun _ files => (files, Return 1)
|}.

(** The user interrupts the program while it waits for the language model. *)
Definition interrupted_world : World := {|
  getenv := getenv working_world;
  input_line := input_line working_world;
  chat_completion := fun _ _ => Raise (Exn KeyboardInterrupt "");
  json_loads := json_loads working_world;
  engine_output := engine_output working_world;
  generate := generate working_world;
  save := save working_world;
  run := run working_world
|}.

(** The language model answers in prose. *)
Definition prose_world : World := {|
  getenv := getenv working_world;
  input_line := input_line working_world;
  chat_completion := fun _ _ => Return ["Sure! Here are the steps."];
  json_loads := json_loads working_world;
  engine_output := engine_output working_world;
  generate := generate working_world;
  save := save working_world;
  run := run working_world
|}.


(** The speech API key is not set. *)
Definition no_speech_key_world : World := {|
  getenv := fun name =>
    if String.eqb name "OPENAI_API_KEY" then Some "sk-test" else None;
  input_line := input_line working_world;
  chat_completion := chat_completion working_world;
  json_loads := json_loads working_world;
  engine_output := engine_output working_world;
  generate := generate working_world;
  save := save working_world;
  run := run working_world
|}.

(** The language model returns a response without any completion. *)
Definition no_completion_world : World := {|
  getenv := getenv working_world;
  input_line := input_line working_world;
  chat_completion := fun _ _ => Return [];
  json_loads := json_loads working_world;
  engine_output := engine_output working_world;
  generate := generate working_world;
  save := save working_world;
  run := run working_world
|}.

(** The speech service refuses the request. *)
Definition speech_down_world : World := {|
  getenv := getenv working_world;
  input_line := input_line working_world;
  chat_completion := chat_completion working_world;
  json_loads := json_loads working_world;
  engine_output := engine_output working_world;
  generate := fun _ _ _ => Raise (Exn (LibraryError "RateLimitError") "quota exceeded");
  save := save working_world;
  run := run working_world
|}.

(** The audio is saved somewhere else than under the name it was given. *)
Definition lost_audio_world : World := {|
  getenv := getenv working_world;
  input_line := input_line working_world;
  chat_completion := chat_completion working_world;
  json_loads := json_loads working_world;
  engine_output := engine_output working_world;
  generate := generate working_world;
  save := fun audio _ files => (<["out/narration.mp3" := audio]> files, Return tt);
  run := fun _ files => (files, Return 1)
|}.

(** A working directory that already holds a file of the user. *)
Definition with_notes : Process :=
  mkProcess {["notes.txt" := "homework"]} [] [] None.

(** The language model's second step has no equation. *)
Definition faulty_step_world : World := {|
  getenv := getenv working_world;
  input_line := input_line working_world;
  chat_completion := chat_completion working_world;
  json_loads := fun _ =>
    Return (PList (map step_value [sample_step]
                   ++ PDict [("explanation", PStr "so x = 1")] :: []));
  engine_output := engine_output working_world;
  generate := generate working_world;
  save := save working_world;
  run := run working_world
|}.

(** ** The JSON grammar

    What "valid JSON" means: a recogniser for the grammar of RFC 8259, on
    the characters of a text.  [json.loads] itself stays a field of
    [World]; it accepts every valid text and, beyond the grammar, the
    constants [NaN], [Infinity] and [-Infinity]. *)

Definition char_code (c : ascii) : nat := nat_of_ascii c.

Definition is_ws (c : ascii) : bool :=
  Nat.eqb (char_code c) 32 || Nat.eqb (char_code c) 9 || Nat.eqb (char_code c) 10
  || Nat.eqb (char_code c) 13.

Definition is_digit (c : ascii) : bool :=
  Nat.leb 48 (char_code c) && Nat.leb (char_code c) 57.

Definition is_hex (c : ascii) : bool :=
  is_digit c
  || (Nat.leb 65 (char_code c) && Nat.leb (char_code c) 70)
  || (Nat.leb 97 (char_code c) && Nat.leb (char_code c) 102).

Fixpoint skip_ws (s : list ascii) : list ascii :=
  match s with
  | c :: r => if is_ws c then skip_ws r else s
  | [] => []
  end.

Fixpoint skip_digits (s : list ascii) : list ascii :=
  match s with
  | c :: r => if is_digit c then skip_digits r else s
  | [] => []
  end.

(** one digit or more *)
Definition some_digits (s : list ascii) : option (list ascii) :=
  match s with
  | c :: r => if is_digit c then Some (skip_digits r) else None
  | [] => None
  end.

(** an optional minus sign; an integer part, either 0 or a digit from 1 to
    9 followed by some_digits; an optional fraction, a point and some_digits; an
    optional exponent, e or E, an optional sign and some_digits *)
Definition json_number (s : list ascii) : option (list ascii) :=
  let unsigned :=
    match s with
    | c :: r => if Nat.eqb (char_code c) 45 then r else s
    | [] => s
    end in
  let after_int :=
    match unsigned with
    | c :: r =>
        if Nat.eqb (char_code c) 48 then Some r
        else if is_digit c then Some (skip_digits r)
        else None
    | [] => None
    end in
  match after_int with
  | None => None
  | Some s1 =>
      let after_frac :=
        match s1 with
        | c :: r => if Nat.eqb (char_code c) 46 then some_digits r else Some s1
        | [] => Some s1
        end in
      match after_frac with
      | None => None
      | Some s2 =>
          match s2 with
          | c :: r =>
              if Nat.eqb (char_code c) 101 || Nat.eqb (char_code c) 69 then
                match r with
                | d :: r' =>
                    if Nat.eqb (char_code d) 43 || Nat.eqb (char_code d) 45
                    then some_digits r' else some_digits r
                | [] => None
                end
              else Some s2
          | [] => Some s2
          end
      end
  end.

(** the rest of a string, after its opening quote *)
Fixpoint json_string_rest (s : list ascii) : option (list ascii) :=
  match s with
  | [] => None
  | c :: r =>
      if Nat.eqb (char_code c) 34 then Some r
      else if Nat.eqb (char_code c) 92 then
        match r with
        | d :: r' =>
            if Nat.eqb (char_code d) 117 then
              match r' with
              | h1 :: h2 :: h3 :: h4 :: r'' =>
                  if is_hex h1 && is_hex h2 && is_hex h3 && is_hex h4
                  then json_string_rest r'' else None
              | _ => None
              end
            else if existsb (Nat.eqb (char_code d)) [34; 92; 47; 98; 102; 110; 114; 116]%nat
            then json_string_rest r'
            else None
        | [] => None
        end
      else if Nat.ltb (char_code c) 32 then None
      else json_string_rest r
  end.

Definition starts_with (word : string) (s : list ascii) : option (list ascii) :=
  let w := list_ascii_of_string word in
  if forallb (fun '(a, b) => Nat.eqb (char_code a) (char_code b))
       (combine w (firstn (length w) s))
     && Nat.eqb (length (firstn (length w) s)) (length w)
  then Some (skipn (length w) s) else None.

(** A value, then the rest of the array or object it opens.  [fuel] bounds
    the nesting and the number of items. *)
Fixpoint json_value (fuel : nat) (s : list ascii) : option (list ascii) :=
  match fuel with
  | O => None
  | S fuel' =>
      match s with
      | [] => None
      | c :: r =>
          if Nat.eqb (char_code c) 34 then json_string_rest r
          else if Nat.eqb (char_code c) 91 then
            match skip_ws r with
            | d :: r' =>
                if Nat.eqb (char_code d) 93 then Some r'
                else json_elements fuel' (d :: r')
            | [] => None
            end
          else if Nat.eqb (char_code c) 123 then
            match skip_ws r with
            | d :: r' =>
                if Nat.eqb (char_code d) 125 then Some r'
                else json_members fuel' (d :: r')
            | [] => None
            end
          else if Nat.eqb (char_code c) 110 then starts_with "null" s
          else if Nat.eqb (char_code c) 116 then starts_with "true" s
          else if Nat.eqb (char_code c) 102 then starts_with "false" s
          else json_number s
      end
  end
with json_elements (fuel : nat) (s : list ascii) : option (list ascii) :=
  match fuel with
  | O => None
  | S fuel' =>
      match json_value fuel' s with
      | None => None
      | Some r =>
          match skip_ws r with
          | c :: r' =>
              if Nat.eqb (char_code c) 93 then Some r'
              else if Nat.eqb (char_code c) 44 then json_elements fuel' (skip_ws r')
              else None
          | [] => None
          end
      end
  end
with json_members (fuel : nat) (s : list ascii) : option (list ascii) :=
  match fuel with
  | O => None
  | S fuel' =>
      match s with
      | q :: r =>
          if Nat.eqb (char_code q) 34 then
            match json_string_rest r with
            | None => None
            | Some r1 =>
                match skip_ws r1 with
                | c :: r2 =>
                    if Nat.eqb (char_code c) 58 then
                      match json_value fuel' (skip_ws r2) with
                      | None => None
                      | Some r3 =>
                          match skip_ws r3 with
                          | d :: r4 =>
                              if Nat.eqb (char_code d) 125 then Some r4
                              else if Nat.eqb (char_code d) 44
                              then json_members fuel' (skip_ws r4)
                              else None
                          | [] => None
                          end
                      end
                    else None
                | [] => None
                end
            end
          else None
      | [] => None
      end
  end.

(** [text] is one JSON value between optional white space. *)
Definition valid_json (text : string) : bool :=
  let s := list_ascii_of_string text in
  match json_value (2 * length s + 2)%nat (skip_ws s) with
  | Some r => match skip_ws r with [] => true | _ => false end
  | None => false
  end.

(** A well-formed answer but for one more member whose value is [NaN],
    which is no JSON value. *)
Definition nan_response : string :=
  "[{" +:+ json_string "equation" +:+ ": " +:+ json_string "x+1=2" +:+ ", "
  +:+ json_string "explanation" +:+ ": " +:+ json_string "subtract 1" +:+ ", "
  +:+ json_string "narration" +:+ ": "
  +:+ json_string "We subtract one from both sides." +:+ ", "
  +:+ json_string "score" +:+ ": NaN}]".

(** The language model sends [nan_response]; [json.loads] accepts it and
    gives the member the float [nan]. *)
Definition nan_world : World := {|
  getenv := getenv working_world;
  input_line := input_line working_world;
  chat_completion := fun _ _ => Return [nan_response];
  json_loads := fun text =>
    if String.eqb text nan_response then
      Return (PList [PDict [("equation", PStr "x+1=2");
                            ("explanation", PStr "subtract 1");
                            ("narration", PStr "We subtract one from both sides.");
                            ("score", PFloat "NaN")]])
    else json_loads working_world text;
  engine_output := engine_output working_world;
  generate := generate working_world;
  save := save working_world;
  run := run working_world
|}.

(** ** Where an exception of the [try] block comes from

    [raised_in w self q p e p']: started in [p], the block reaches one of
    its four steps or one of the two removals of the cleanup after all
    earlier ones have returned, and that one raises [e], leaving [p']. *)
Inductive raised_in (w : World) (self : MathTutor) (q : string) (p : Process)
  (e : exn) (p' : Process) : Prop :=
| raised_in_generate :
    generate_explanation w self q p = (p', Raise e) ->
    raised_in w self q p e p'
| raised_in_render (p1 : Process) (steps : pyval) :
    generate_explanation w self q p = (p1, Return steps) ->
    Scene_render w (mkMathScene steps) p1 = (p', Raise e) ->
    raised_in w self q p e p'
| raised_in_narrate (p1 p2 : Process) (steps : pyval) :
    generate_explanation w self q p = (p1, Return steps) ->
    Scene_render w (mkMathScene steps) p1 = (p2, Return tt) ->
    create_narration w self steps p2 = (p', Raise e) ->
    raised_in w self q p e p'
| raised_in_mux (p1 p2 p3 : Process) (steps : pyval) (a : string) :
    generate_explanation w self q p = (p1, Return steps) ->
    Scene_render w (mkMathScene steps) p1 = (p2, Return tt) ->
    create_narration w self steps p2 = (p3, Return a) ->
    external_fs
      (CallSubprocess (ffmpeg_argv "math_scene.mp4" a "final_explanation.mp4"))
      (run w (ffmpeg_argv "math_scene.mp4" a "final_explanation.mp4")) p3
    = (p', Raise e) ->
    raised_in w self q p e p'
| raised_in_remove_video (p1 p2 p3 p4 : Process) (steps : pyval) (a : string)
    (code : Z) :
    generate_explanation w self q p = (p1, Return steps) ->
    Scene_render w (mkMathScene steps) p1 = (p2, Return tt) ->
    create_narration w self steps p2 = (p3, Return a) ->
    external_fs
      (CallSubprocess (ffmpeg_argv "math_scene.mp4" a "final_explanation.mp4"))
      (run w (ffmpeg_argv "math_scene.mp4" a "final_explanation.mp4")) p3
    = (p4, Return code) ->
    os_remove "math_scene.mp4" p4 = (p', Raise e) ->
    raised_in w self q p e p'
| raised_in_remove_audio (p1 p2 p3 p4 p5 : Process) (steps : pyval)
    (a : string) (code : Z) :
    generate_explanation w self q p = (p1, Return steps) ->
    Scene_render w (mkMathScene steps) p1 = (p2, Return tt) ->
    create_narration w self steps p2 = (p3, Return a) ->
    external_fs
      (CallSubprocess (ffmpeg_argv "math_scene.mp4" a "final_explanation.mp4"))
      (run w (ffmpeg_argv "math_scene.mp4" a "final_explanation.mp4")) p3
    = (p4, Return code) ->
    os_remove "math_scene.mp4" p4 = (p5, Return tt) ->
    os_remove a p5 = (p', Raise e) ->
    raised_in w self q p e p'.

(** ** Reading the outcome of the muxer *)

(** The muxer failed: its exit status is not 0, or the output file is
    missing or empty afterwards. *)
Definition mux_failed (code : Z) (files : gmap string string) : Prop :=
  code <> 0
  \/ files !! "final_explanation.mp4" = None
  \/ files !! "final_explanation.mp4" = Some "".

(** ** [construct] on a StepSequence *)

(** The equation and the explanation of the step at index [i], placed as the
    layout policy says: the equation [3 - i] units up, the explanation next
    to it on the right. *)
Definition equation_at (i : nat) (s : Step) : mobject :=
  shift (MathTex (PStr (equation s))) (Vec 0 (3 - Z.of_nat i) 0).

Definition explanation_at (i : nat) (s : Step) : mobject :=
  next_to (Text (PStr (explanation s)) 24) (equation_at i s) RIGHT (1 # 2).

Definition arrow_below (m : mobject) : mobject :=
  Arrow (get_bottom m) (padd (get_bottom m) DOWN) BLUE.

(** What one pass of the loop plays when it starts with [current_y = y]. *)
Definition step_events (y : Z) (s : Step) : list event :=
  let eq := shift (MathTex (PStr (equation s))) (Vec 0 y 0) in
  [Play (Write eq);
   Play (Write (next_to (Text (PStr (explanation s)) 24) eq RIGHT (1 # 2)))]
  ++ (if y - 1 >? -3 then [Play (Create (arrow_below eq))] else [])
  ++ [Wait 2].

Fixpoint loop_events (y : Z) (l : list Step) : list event :=
  match l with
  | [] => []
  | s :: l' => step_events y s ++ loop_events (y - 1) l'
  end.

(** The same steps with other narration texts: step [i] gets [n i]. *)
Definition renarrate (n : nat -> string) (l : list Step) : list Step :=
  imap (fun i s => mkStep (equation s) (explanation s) (n i)) l.

Lemma vscale_UP (k : Z) : vscale UP k = Vec 0 k 0.
Proof. unfold vscale, UP. cbn [vx vy vz]. f_equal; lia. Qed.

Lemma construct_step_value (loc : locals) (s : Step) (sc : Scene) :
  exists eqs,
    construct_step loc (step_value s) sc
    = (mkScene (timeline sc ++ step_events (current_y loc) s),
       Return (mkLocals (current_y loc - 1) eqs)).
Proof.
  destruct loc as [y eqs], sc as [tl].
  unfold construct_step, step_events, bind, lift, play, wait, modify, ret.
  cbn -[Z.gtb Z.sub vscale]. rewrite vscale_UP.
  unfold arrow_below.
  destruct (y - 1 >? -3); cbn; eexists; rewrite <- ?app_assoc; reflexivity.
Qed.

Lemma for_loop_steps (l : list Step) :
  forall loc sc, exists eqs,
    for_loop construct_step (map step_value l) loc sc
    = (mkScene (timeline sc ++ loop_events (current_y loc) l),
       Return (mkLocals (current_y loc - Z.of_nat (length l)) eqs)).
Proof.
  induction l as [|s l IH]; intros loc sc.
  - exists (all_equations loc). destruct loc, sc. cbn.
    rewrite app_nil_r, Z.sub_0_r. reflexivity.
  - destruct (construct_step_value loc s sc) as [eqs1 H1].
    cbn [map for_loop]. unfold bind at 1. rewrite H1.
    destruct (IH (mkLocals (current_y loc - 1) eqs1)
                (mkScene (timeline sc ++ step_events (current_y loc) s)))
      as [eqs2 H2].
    exists eqs2. rewrite H2. cbn [timeline current_y loop_events length].
    rewrite <- app_assoc. do 3 f_equal. lia.
Qed.

Lemma rendered_steps (l : list Step) :
  rendered (steps_value l) = loop_events 3 l ++ [Wait 2].
Proof.
  unfold rendered, construct, steps_value. cbn [steps py_iter].
  unfold bind at 1. unfold lift at 1.
  unfold bind at 1.
  destruct (for_loop_steps l (mkLocals 3 []) (mkScene [])) as [eqs H].
  rewrite H. reflexivity.
Qed.

Lemma shown_app (tl1 tl2 : list event) :
  shown (tl1 ++ tl2) = shown tl1 ++ shown tl2.
Proof.
  induction tl1 as [|[[m|m]|d] tl1 IH]; cbn; rewrite ?IH; reflexivity.
Qed.

Lemma count_app (k : kind) (tl1 tl2 : list event) :
  count k (tl1 ++ tl2) = (count k tl1 + count k tl2)%nat.
Proof.
  unfold count, elements. rewrite shown_app, filter_app, length_app.
  reflexivity.
Qed.

Lemma count_step_events (y : Z) (s : Step) :
  count Equation (step_events y s) = 1%nat
  /\ count Explanation (step_events y s) = 1%nat
  /\ count ArrowMark (step_events y s) = (if y - 1 >? -3 then 1 else 0)%nat.
Proof.
  unfold step_events. destruct (y - 1 >? -3); repeat split; reflexivity.
Qed.

Lemma count_loop_events (l : list Step) :
  forall y,
    count Equation (loop_events y l) = length l
    /\ count Explanation (loop_events y l) = length l
    /\ count ArrowMark (loop_events y l)
       = Nat.min (length l) (Z.to_nat (y + 2)).
Proof.
  induction l as [|s l IH]; intros y.
  - repeat split; reflexivity.
  - cbn [loop_events length]. rewrite !count_app.
    destruct (count_step_events y s) as (He & Hx & Ha).
    destruct (IH (y - 1)) as (IHe & IHx & IHa).
    rewrite He, Hx, Ha, IHe, IHx, IHa.
    repeat split; try reflexivity.
    destruct (Z.gtb_spec (y - 1) (-3)); lia.
Qed.

(** The renderer's element counts on any StepSequence: one equation and one
    explanation per step, and an arrow after each of the first five steps
    only, whatever the number of steps. *)
Lemma construct_counts (l : list Step) :
  count Equation (rendered (steps_value l)) = length l
  /\ count Explanation (rendered (steps_value l)) = length l
  /\ count ArrowMark (rendered (steps_value l)) = Nat.min (length l) 5.
Proof.
  rewrite rendered_steps, !count_app.
  destruct (count_loop_events l 3) as (He & Hx & Ha).
  rewrite He, Hx, Ha. cbn. repeat split; lia.
Qed.

(** C1 (the code departs from the claim): on the single-step sequence of the
    specification's scenario the renderer shows 1 equation and 1
    explanation, but 1 arrow where the claim has 0 (N-1).  The loop tests
    [current_y > -3], the vertical position, where its comment says
    "if not last step". *)
Theorem construct_single_step_has_arrow :
  count Equation (rendered (steps_value [sample_step])) = 1%nat
  /\ count Explanation (rendered (steps_value [sample_step])) = 1%nat
  /\ count ArrowMark (rendered (steps_value [sample_step])) = 1%nat
  /\ elements ArrowMark (rendered (steps_value [sample_step]))
     = [arrow_below (equation_at 0 sample_step)].
Proof. repeat split; reflexivity. Qed.

Lemma frames_step_events (y : Z) (s : Step) (rest : list event) :
  let eq := shift (MathTex (PStr (equation s))) (Vec 0 y 0) in
  exists arrows,
    frames_from [] (step_events y s ++ rest)
    = ([eq; next_to (Text (PStr (explanation s)) 24) eq RIGHT (1 # 2)]
       ++ arrows, 2) :: frames_from [] rest
    /\ filter (fun m => is_arrow m = false) arrows = [].
Proof.
  unfold step_events. destruct (y - 1 >? -3).
  - eexists [_]. cbn. split; reflexivity.
  - exists []. cbn. split; reflexivity.
Qed.

Lemma frames_loop_events (l : list Step) :
  forall k : nat,
    map without_arrows
      (frames_from [] (loop_events (3 - Z.of_nat k) l ++ [Wait 2]))
    = imap (fun i s => ([equation_at (k + i) s; explanation_at (k + i) s], 2)) l
      ++ [([], 2)].
Proof.
  induction l as [|s l IH]; intros k.
  - reflexivity.
  - cbn [loop_events]. rewrite <- app_assoc.
    destruct (frames_step_events (3 - Z.of_nat k) s
                (loop_events (3 - Z.of_nat k - 1) l ++ [Wait 2]))
      as (arrows & -> & Harrows).
    rewrite imap_cons. cbn [map app].
    replace (3 - Z.of_nat k - 1) with (3 - Z.of_nat (S k)) by lia.
    rewrite IH. f_equal.
    + unfold without_arrows. cbn [fst snd].
      rewrite !filter_cons_True by reflexivity. rewrite Harrows.
      unfold equation_at, explanation_at, equation_at.
      rewrite Nat.add_0_r. reflexivity.
    + f_equal. apply imap_ext. intros i x _. cbn.
      replace (k + S i)%nat with (S (k + i)) by lia. reflexivity.
Qed.

Lemma loop_events_narration_free (l : list Step) :
  forall (l' : list Step) (y : Z),
    map equation l' = map equation l ->
    map explanation l' = map explanation l ->
    loop_events y l' = loop_events y l.
Proof.
  induction l as [|s l IH]; intros [|s' l'] y He Hx; try discriminate.
  - reflexivity.
  - cbn in He, Hx. injection He as He1 He2. injection Hx as Hx1 Hx2.
    cbn [loop_events]. rewrite (IH l' (y - 1) He2 Hx2).
    unfold step_events. rewrite He1, Hx1. reflexivity.
Qed.

Lemma pauses_app (tl1 tl2 : list event) :
  pauses (tl1 ++ tl2) = pauses tl1 ++ pauses tl2.
Proof.
  induction tl1 as [|[a|d] tl1 IH]; cbn; rewrite ?IH; reflexivity.
Qed.

Lemma pauses_loop_events (l : list Step) :
  forall y, pauses (loop_events y l) = repeat 2 (length l).
Proof.
  induction l as [|s l IH]; intros y; [reflexivity|].
  cbn [loop_events length repeat]. rewrite pauses_app, IH.
  unfold step_events. destruct (y - 1 >? -3); reflexivity.
Qed.

Lemma renarrate_fields (l : list Step) :
  forall n, map equation (renarrate n l) = map equation l
            /\ map explanation (renarrate n l) = map explanation l.
Proof.
  unfold renarrate. induction l as [|s l IH]; intros n; [split; reflexivity|].
  rewrite imap_cons. cbn [map equation explanation].
  destruct (IH (n ∘ S)) as [He Hx]. split; f_equal; assumption.
Qed.

(** C8: on every StepSequence the renderer's timeline is one frame per step
    followed by a closing pause.  Frame [i] shows the equation of step [i]
    centred [3 - i] units up (3 for the first step, one unit lower for each
    further step) and its explanation placed next to that equation on the
    right, and is followed by a pause of 2; every pause of the timeline
    lasts 2, and the timeline is the same whatever the narration texts of
    the steps are. *)
Theorem construct_layout_and_pauses (l : list Step) :
  map without_arrows (frames (rendered (steps_value l)))
  = imap (fun i s => ([equation_at i s; explanation_at i s], 2)) l
    ++ [([], 2)]
  /\ pauses (rendered (steps_value l)) = repeat 2 (S (length l))
  /\ (forall s, center (equation_at 0 s) = Some (Vec 0 3 0))
  /\ (forall i s s',
        center (equation_at (S i) s')
        = (fun c => vadd c DOWN) <$> center (equation_at i s))
  /\ (forall n, rendered (steps_value (renarrate n l))
                = rendered (steps_value l)).
Proof.
  repeat split.
  - rewrite rendered_steps. apply (frames_loop_events l 0).
  - rewrite rendered_steps, pauses_app, pauses_loop_events.
    cbn [pauses repeat]. symmetry. apply repeat_cons.
  - intros i s s'. cbn. unfold vadd, ORIGIN, DOWN. cbn [vx vy vz].
    do 2 f_equal; lia.
  - intros n. rewrite !rendered_steps. f_equal.
    destruct (renarrate_fields l n) as [He Hx].
    apply loop_events_narration_free; assumption.
Qed.

(** ** The narration text *)

Lemma append_assoc (a b c : string) : (a +:+ b) +:+ c = a +:+ (b +:+ c).
Proof.
  induction a as [|ch a IH]; [reflexivity|].
  change (String ch ((a +:+ b) +:+ c) = String ch (a +:+ (b +:+ c))).
  f_equal. exact IH.
Qed.

Lemma join_check_strings (ss : list string) :
  forall i, join_check (map PStr ss) i = Return ss.
Proof.
  induction ss as [|s ss IH]; intros i; cbn; [reflexivity|].
  rewrite IH. reflexivity.
Qed.

Lemma join_fold (sep : string) (ss : list string) :
  forall x buf,
    fst (fold_left (join_append sep) ss (buf +:+ x, false))
    = buf +:+ String.concat sep (x :: ss).
Proof.
  induction ss as [|s ss IH]; intros x buf; [reflexivity|].
  cbn [fold_left join_append].
  rewrite (IH s ((buf +:+ x) +:+ sep)).
  change (String.concat sep (x :: s :: ss))
    with (x +:+ (sep +:+ String.concat sep (s :: ss))).
  rewrite !append_assoc. reflexivity.
Qed.

Lemma str_join_strings (sep : string) (ss : list string) :
  str_join sep (map PStr ss) = Return (String.concat sep ss).
Proof.
  unfold str_join. rewrite join_check_strings.
  destruct ss as [|x ss]; [reflexivity|].
  cbn [fold_left join_append]. f_equal. apply (join_fold sep ss x "").
Qed.

Lemma narration_items (l : list Step) :
  generate_items (fun step => py_getitem step "narration") (map step_value l)
  = Return (map PStr (map narration l)).
Proof.
  induction l as [|s l IH]; [reflexivity|].
  cbn [map generate_items]. rewrite IH. reflexivity.
Qed.

Lemma full_narration_steps (l : list Step) :
  full_narration (steps_value l)
  = Return (String.concat " " (map narration l)).
Proof.
  unfold full_narration, steps_value. cbn [py_iter].
  rewrite narration_items. apply str_join_strings.
Qed.

(** C2: for every StepSequence, of any length from 0 up, the text the
    Narrator sends to the speech service is the narration fields of the steps
    in their order, all of them, with one space between neighbours; it is
    sent with the fixed voice and model; for the single step of the
    specification's scenario it is exactly that step's narration. *)
Theorem create_narration_text (w : World) (self : MathTutor) (l : list Step)
  (p : Process) :
  full_narration (steps_value l)
  = Return (String.concat " " (map narration l))
  /\ (exists rest,
        calls (fst (create_narration w self (steps_value l) p))
        = calls p
          ++ CallGenerate (String.concat " " (map narration l))
               "Bella" "eleven_multilingual_v1" :: rest)
  /\ full_narration (steps_value [sample_step])
     = Return "We subtract one from both sides.".
Proof.
  split; [apply full_narration_steps|]. split; [|reflexivity].
  unfold create_narration, bind, lift, external, external_fs.
  rewrite full_narration_steps.
  destruct (generate w _ _ _) as [audio|e]; cbn.
  - destruct (save w audio "narration.mp3" (fs p)) as [files [[]|e]];
      eexists; cbn; rewrite <- app_assoc; reflexivity.
  - exists []. reflexivity.
Qed.

(** ** The orchestrator *)

Local Abbreviation mux_argv :=
  (ffmpeg_argv "math_scene.mp4" "narration.mp3" "final_explanation.mp4").

Local Abbreviation chat_call q :=
  (CallChatCompletion "gpt-4" [("user", prompt_for q)]).

Local Abbreviation error_line e :=
  ("Error creating video: " +:+ exn_str e +:+ LF).

Local Abbreviation missing_file path :=
  (Exn FileNotFoundError
     ("[Errno 2] No such file or directory: " +:+ quote path)).

Ltac run_monad :=
  unfold bind, lift, external, external_fs, os_remove, ret;
  cbn [fs stdout calls with_fs with_call with_output].

Section TryBlock.

Variables (w : World) (self : MathTutor) (q : string).

(** *** What the steps leave behind *)

Lemma create_narration_returns (steps : pyval) (p p' : Process) (a : string) :
  create_narration w self steps p = (p', Return a) -> a = "narration.mp3".
Proof.
  unfold create_narration. run_monad.
  destruct (full_narration steps) as [text|e]; [|discriminate].
  destruct (generate w _ _ _) as [audio|e]; [|discriminate].
  destruct (save w audio "narration.mp3" _) as [files [[]|e]];
    [|discriminate].
  intros H. injection H as _ H. symmetry. exact H.
Qed.

Lemma create_narration_stdout (steps : pyval) (p : Process) :
  stdout (fst (create_narration w self steps p)) = stdout p.
Proof.
  unfold create_narration. run_monad.
  destruct (full_narration steps) as [text|e]; [|reflexivity].
  destruct (generate w _ _ _) as [audio|e]; [|reflexivity].
  destruct (save w audio "narration.mp3" (fs p)) as [files [[]|e]];
    reflexivity.
Qed.


Lemma generate_explanation_stdout (p : Process) :
  stdout (fst (generate_explanation w self q p)) = stdout p.
Proof.
  unfold generate_explanation. run_monad.
  destruct (chat_completion w _ _) as [response|e]; [|reflexivity].
  destruct (first_item response); reflexivity.
Qed.

Lemma Scene_render_stdout (scene : MathScene) (p : Process) :
  stdout (fst (Scene_render w scene p)) = stdout p.
Proof.
  unfold Scene_render.
  destruct (construct scene (mkScene [])) as [sc built].
  destruct (engine_output w _ _ _). reflexivity.
Qed.

Lemma Scene_render_calls (v : pyval) (p p' : Process) (r : result unit) :
  Scene_render w (mkMathScene v) p = (p', r) ->
  calls p' = calls p ++ [CallRender (rendered v)].
Proof.
  unfold Scene_render, rendered.
  destruct (construct (mkMathScene v) (mkScene [])) as [sc built].
  destruct (engine_output w _ _ _) as [files enc].
  intros H. injection H as <- _. reflexivity.
Qed.

(** *** The [try] block of [create_video] *)

(** When every step returns and both intermediate files are there for the
    cleanup, the block returns the output path. *)
Lemma create_video_body_success (p p1 p2 p3 : Process) (steps : pyval)
  (a : string) (files : gmap string string) (code : Z) :
  generate_explanation w self q p = (p1, Return steps) ->
  Scene_render w (mkMathScene steps) p1 = (p2, Return tt) ->
  create_narration w self steps p2 = (p3, Return a) ->
  run w mux_argv (fs p3) = (files, Return code) ->
  is_Some (files !! "math_scene.mp4") ->
  is_Some (files !! "narration.mp3") ->
  create_video_body w self q p
  = (with_fs (delete "narration.mp3" (delete "math_scene.mp4" files))
       (with_call (CallSubprocess mux_argv) p3),
     Return (Some "final_explanation.mp4")).
Proof.
  intros Hg Hr Hn Hm [video Hv] [audio Ha].
  pose proof (create_narration_returns _ _ _ _ Hn) as ->.
  unfold create_video_body, bind. rewrite Hg, Hr, Hn.
  run_monad. rewrite Hm. cbn [fs with_fs].
  rewrite Hv. cbn [fs with_fs].
  rewrite lookup_delete_ne by discriminate. rewrite Ha. reflexivity.
Qed.

(** Conversely, the block returns only that way. *)
Lemma create_video_body_return_inv (p p' : Process) (v : option string) :
  create_video_body w self q p = (p', Return v) ->
  exists p1 p2 p3 steps files code,
    generate_explanation w self q p = (p1, Return steps)
    /\ Scene_render w (mkMathScene steps) p1 = (p2, Return tt)
    /\ create_narration w self steps p2 = (p3, Return "narration.mp3")
    /\ run w mux_argv (fs p3) = (files, Return code)
    /\ is_Some (files !! "math_scene.mp4")
    /\ is_Some (files !! "narration.mp3")
    /\ p' = with_fs (delete "narration.mp3" (delete "math_scene.mp4" files))
              (with_call (CallSubprocess mux_argv) p3)
    /\ v = Some "final_explanation.mp4".
Proof.
  unfold create_video_body, bind.
  destruct (generate_explanation w self q p) as [p1 [steps|e]] eqn:Hg;
    [|discriminate].
  destruct (Scene_render w (mkMathScene steps) p1) as [p2 [[]|e]] eqn:Hr;
    [|discriminate].
  destruct (create_narration w self steps p2) as [p3 [a|e]] eqn:Hn;
    [|discriminate].
  pose proof (create_narration_returns _ _ _ _ Hn) as ->.
  run_monad.
  destruct (run w mux_argv (fs p3)) as [files [code|e]] eqn:Hm;
    [|discriminate].
  cbn [fs with_fs].
  destruct (files !! "math_scene.mp4") as [video|] eqn:Hv; [|discriminate].
  cbn [fs with_fs].
  destruct (delete "math_scene.mp4" files !! "narration.mp3")
    as [audio|] eqn:Ha; [|discriminate].
  intros H. injection H as <- <-.
  rewrite lookup_delete_ne in Ha by discriminate.
  exists p1, p2, p3, steps, files, code.
  repeat split; eauto.
Qed.

(** Where the block can raise: an exception of any of the four steps, and
    the error of a removal in the cleanup, leaves the block as it is. *)
Lemma try_block_propagates (p p1 p2 p3 : Process) (steps : pyval)
  (a : string) (files : gmap string string) (code : Z) (e : exn) :
  (generate_explanation w self q p = (p1, Raise e) ->
   create_video_body w self q p = (p1, Raise e))
  /\ (generate_explanation w self q p = (p1, Return steps) ->
      Scene_render w (mkMathScene steps) p1 = (p2, Raise e) ->
      create_video_body w self q p = (p2, Raise e))
  /\ (generate_explanation w self q p = (p1, Return steps) ->
      Scene_render w (mkMathScene steps) p1 = (p2, Return tt) ->
      create_narration w self steps p2 = (p3, Raise e) ->
      create_video_body w self q p = (p3, Raise e))
  /\ (generate_explanation w self q p = (p1, Return steps) ->
      Scene_render w (mkMathScene steps) p1 = (p2, Return tt) ->
      create_narration w self steps p2 = (p3, Return a) ->
      run w mux_argv (fs p3) = (files, Raise e) ->
      create_video_body w self q p
      = (with_fs files (with_call (CallSubprocess mux_argv) p3), Raise e))
  /\ (generate_explanation w self q p = (p1, Return steps) ->
      Scene_render w (mkMathScene steps) p1 = (p2, Return tt) ->
      create_narration w self steps p2 = (p3, Return a) ->
      run w mux_argv (fs p3) = (files, Return code) ->
      files !! "math_scene.mp4" = None ->
      snd (create_video_body w self q p)
      = Raise (missing_file "math_scene.mp4"))
  /\ (generate_explanation w self q p = (p1, Return steps) ->
      Scene_render w (mkMathScene steps) p1 = (p2, Return tt) ->
      create_narration w self steps p2 = (p3, Return a) ->
      run w mux_argv (fs p3) = (files, Return code) ->
      is_Some (files !! "math_scene.mp4") ->
      files !! "narration.mp3" = None ->
      snd (create_video_body w self q p)
      = Raise (missing_file "narration.mp3")).
Proof.
  unfold create_video_body, bind. repeat split.
  - intros ->. reflexivity.
  - intros -> ->. reflexivity.
  - intros -> -> ->. reflexivity.
  - intros -> -> Hn.
    pose proof (create_narration_returns _ _ _ _ Hn) as ->.
    rewrite Hn. run_monad. intros ->. reflexivity.
  - intros -> -> Hn.
    pose proof (create_narration_returns _ _ _ _ Hn) as ->.
    rewrite Hn. run_monad. intros -> Hv.
    cbn [fs with_fs]. rewrite Hv. reflexivity.
  - intros -> -> Hn.
    pose proof (create_narration_returns _ _ _ _ Hn) as ->.
    rewrite Hn. run_monad. intros -> [video Hv] Ha.
    cbn [fs with_fs]. rewrite Hv. cbn [fs with_fs].
    rewrite lookup_delete_ne by discriminate. rewrite Ha. reflexivity.
Qed.


(** What the handler makes of an exception of the block. *)
Lemma create_video_on_raise (p p' : Process) (e : exn) :
  create_video_body w self q p = (p', Raise e) ->
  create_video w self q p
  = if is_Exception e then (with_output (error_line e) p', Return None)
    else (p', Raise e).
Proof.
  intros Hbody. unfold create_video, try_except_Exception.
  rewrite Hbody. destruct (is_Exception e); reflexivity.
Qed.

End TryBlock.

(** ** The orchestration contract *)

(** C3, as stated, fails: in [missing_video_world] the first three steps
    return, the muxer exits with status 1 and writes no output file, and
    [create_video] returns [None], because removing the absent
    [math_scene.mp4] raises. *)
Lemma failed_mux_can_surface_as_none :
  ~ (forall (w : World) (self : MathTutor) (q : string)
       (p p1 p2 p3 : Process) (steps : pyval) (a : string)
       (files : gmap string string) (code : Z),
       generate_explanation w self q p = (p1, Return steps) ->
       Scene_render w (mkMathScene steps) p1 = (p2, Return tt) ->
       create_narration w self steps p2 = (p3, Return a) ->
       run w mux_argv (fs p3) = (files, Return code) ->
       mux_failed code files ->
       snd (create_video w self q p) = Return (Some "final_explanation.mp4")).
Proof.
  intros claim.
  assert (snd (create_video missing_video_world sample_tutor "Solve x+1=2" fresh)
          = Return (Some "final_explanation.mp4")) as H.
  { eapply (claim missing_video_world sample_tutor "Solve x+1=2" fresh).
    - vm_compute. reflexivity.
    - vm_compute. reflexivity.
    - vm_compute. reflexivity.
    - vm_compute. reflexivity.
    - left. discriminate. }
  vm_compute in H. discriminate H.
Qed.

Lemma create_video_body_after_mux (w : World) (self : MathTutor) (q : string)
  (p p1 p2 p3 : Process) (steps : pyval) (a : string)
  (files : gmap string string) (code : Z) :
  generate_explanation w self q p = (p1, Return steps) ->
  Scene_render w (mkMathScene steps) p1 = (p2, Return tt) ->
  create_narration w self steps p2 = (p3, Return a) ->
  run w mux_argv (fs p3) = (files, Return code) ->
  create_video_body w self q p
  = match files !! "math_scene.mp4", files !! "narration.mp3" with
    | Some _, Some _ =>
        (with_fs (delete "narration.mp3" (delete "math_scene.mp4" files))
           (with_call (CallSubprocess mux_argv) p3),
         Return (Some "final_explanation.mp4"))
    | Some _, None =>
        (with_fs (delete "math_scene.mp4" files)
           (with_call (CallSubprocess mux_argv) p3),
         Raise (missing_file "narration.mp3"))
    | None, _ =>
        (with_fs files (with_call (CallSubprocess mux_argv) p3),
         Raise (missing_file "math_scene.mp4"))
    end.
Proof.
  intros Hg Hr Hn Hm.
  pose proof (create_narration_returns _ _ _ _ _ _ Hn) as ->.
  unfold create_video_body, bind. rewrite Hg, Hr, Hn. run_monad.
  rewrite Hm. cbn [fs with_fs].
  destruct (files !! "math_scene.mp4") as [video|]; [|reflexivity].
  cbn [fs with_fs]. rewrite lookup_delete_ne by discriminate.
  destruct (files !! "narration.mp3"); reflexivity.
Qed.

(** C3, amended: if the muxer runs and fails (exit status not 0, or output
    file missing or empty), the orchestrator never looks at the exit status
    or at the output file; what [create_video] does is decided by the two
    intermediate files alone.  If both are on disk, it deletes them, writes
    nothing to standard output and returns the output path, not [None].  If
    [math_scene.mp4] is missing, its removal raises: [create_video] prints
    that error and returns [None], and deletes nothing.  If only
    [narration.mp3] is missing, it deletes [math_scene.mp4], then prints
    the error of the second removal and returns [None]. *)
Theorem failed_mux_goes_unnoticed (w : World) (self : MathTutor) (q : string)
  (p p1 p2 p3 : Process) (steps : pyval) (a : string)
  (files : gmap string string) (code : Z) :
  generate_explanation w self q p = (p1, Return steps) ->
  Scene_render w (mkMathScene steps) p1 = (p2, Return tt) ->
  create_narration w self steps p2 = (p3, Return a) ->
  run w mux_argv (fs p3) = (files, Return code) ->
  mux_failed code files ->
  match files !! "math_scene.mp4", files !! "narration.mp3" with
  | Some _, Some _ =>
      snd (create_video w self q p) = Return (Some "final_explanation.mp4")
      /\ fs (fst (create_video w self q p))
         = delete "narration.mp3" (delete "math_scene.mp4" files)
      /\ stdout (fst (create_video w self q p)) = stdout p
  | Some _, None =>
      snd (create_video w self q p) = Return None
      /\ fs (fst (create_video w self q p)) = delete "math_scene.mp4" files
      /\ stdout (fst (create_video w self q p))
         = stdout p ++ [error_line (missing_file "narration.mp3")]
  | None, _ =>
      snd (create_video w self q p) = Return None
      /\ fs (fst (create_video w self q p)) = files
      /\ stdout (fst (create_video w self q p))
         = stdout p ++ [error_line (missing_file "math_scene.mp4")]
  end.
Proof.
  intros Hg Hr Hn Hm _.
  pose proof (create_video_body_after_mux _ _ _ _ _ _ _ _ _ _ _
                Hg Hr Hn Hm) as Hbody.
  assert (stdout p3 = stdout p) as Hout.
  { rewrite <- (generate_explanation_stdout w self q p), Hg. cbn [fst].
    rewrite <- (Scene_render_stdout w (mkMathScene steps) p1), Hr. cbn [fst].
    rewrite <- (create_narration_stdout w self steps p2), Hn. reflexivity. }
  destruct (files !! "math_scene.mp4") as [video|].
  - destruct (files !! "narration.mp3") as [audio|].
    + unfold create_video, try_except_Exception. rewrite Hbody.
      cbn [fst snd fs stdout with_fs with_call]. repeat split. exact Hout.
    + rewrite (create_video_on_raise w self q _ _ _ Hbody).
      cbn [is_Exception exn_class_of fst snd fs stdout with_fs with_call
             with_output].
      rewrite Hout. repeat split.
  - rewrite (create_video_on_raise w self q _ _ _ Hbody).
    cbn [is_Exception exn_class_of fst snd fs stdout with_fs with_call
           with_output].
    rewrite Hout. repeat split.
Qed.

Lemma failed_mux_goes_unnoticed_witness :
  snd (create_video failing_mux_world sample_tutor "Solve x+1=2" fresh)
  = Return (Some "final_explanation.mp4")
  /\ fs (fst (create_video failing_mux_world sample_tutor "Solve x+1=2" fresh))
     = delete "narration.mp3"
         (delete "math_scene.mp4"
            (<["narration.mp3" := "speech:We subtract one from both sides."]>
               (<["math_scene.mp4" := "video"]> ∅)))
  /\ stdout (fst (create_video failing_mux_world sample_tutor "Solve x+1=2" fresh))
     = [].
Proof.
  pose proof (failed_mux_goes_unnoticed failing_mux_world sample_tutor
                "Solve x+1=2" fresh
                (fst (generate_explanation failing_mux_world sample_tutor
                        "Solve x+1=2" fresh))
                (fst (Scene_render failing_mux_world
                        (mkMathScene (steps_value [sample_step]))
                        (fst (generate_explanation failing_mux_world
                                sample_tutor "Solve x+1=2" fresh))))
                (fst (create_narration failing_mux_world sample_tutor
                        (steps_value [sample_step])
                        (fst (Scene_render failing_mux_world
                                (mkMathScene (steps_value [sample_step]))
                                (fst (generate_explanation failing_mux_world
                                        sample_tutor "Solve x+1=2" fresh))))))
                (steps_value [sample_step]) "narration.mp3"
                (<["narration.mp3" := "speech:We subtract one from both sides."]>
                   (<["math_scene.mp4" := "video"]> ∅))
                1) as H.
  assert (mux_failed 1
            (<["narration.mp3" := "speech:We subtract one from both sides."]>
               (<["math_scene.mp4" := "video"]> ∅))) as Hfailed.
  { left. discriminate. }
  specialize (H ltac:(vm_compute; reflexivity) ltac:(vm_compute; reflexivity)
                ltac:(vm_compute; reflexivity) ltac:(vm_compute; reflexivity)
                Hfailed).
  exact H.
Defined.

(** C4, as stated, fails: a [KeyboardInterrupt] raised while the first step
    waits for the language model is not an instance of [Exception]; it leaves
    [create_video] uncaught, nothing is logged and no value is returned. *)
Lemma create_video_lets_interrupt_through :
  snd (create_video_body interrupted_world sample_tutor "Solve x+1=2" fresh)
  = Raise (Exn KeyboardInterrupt "")
  /\ snd (create_video interrupted_world sample_tutor "Solve x+1=2" fresh)
     = Raise (Exn KeyboardInterrupt "")
  /\ snd (create_video interrupted_world sample_tutor "Solve x+1=2" fresh)
     <> Return None
  /\ stdout (fst (create_video interrupted_world sample_tutor "Solve x+1=2" fresh))
     = [].
Proof. repeat split. discriminate. Qed.

Lemma raised_in_body (w : World) (self : MathTutor) (q : string)
  (p p' : Process) (e : exn) :
  raised_in w self q p e p' ->
  create_video_body w self q p = (p', Raise e).
Proof.
  intros [Hg
         | p1 steps Hg Hr
         | p1 p2 steps Hg Hr Hn
         | p1 p2 p3 steps a Hg Hr Hn Hm
         | p1 p2 p3 p4 steps a code Hg Hr Hn Hm Hv
         | p1 p2 p3 p4 p5 steps a code Hg Hr Hn Hm Hv Ha];
    unfold create_video_body, bind; rewrite Hg; try rewrite Hr;
    try rewrite Hn; try rewrite Hm; try rewrite Hv; try rewrite Ha;
    reflexivity.
Qed.

(** C4, amended: an exception raised in any of the four steps (generate,
    render, narrate, mux) or in the cleanup is caught by [create_video]
    when, and only when, it is an instance of [Exception]: [create_video]
    then prints one line for it to standard output and returns [None], the
    state being otherwise as the failing step left it.  An exception that
    derives from [BaseException] only is not caught: it leaves
    [create_video] as it is, nothing is printed and no value is returned. *)
Theorem create_video_catches_Exception (w : World) (self : MathTutor)
  (q : string) (p p' : Process) (e : exn) :
  raised_in w self q p e p' ->
  create_video w self q p
  = if is_Exception e then (with_output (error_line e) p', Return None)
    else (p', Raise e).
Proof.
  intros Hraised.
  exact (create_video_on_raise w self q p p' e
           (raised_in_body w self q p p' e Hraised)).
Qed.

Lemma create_video_catches_Exception_witness :
  create_video missing_video_world sample_tutor "Solve x+1=2" fresh
  = (with_output (error_line (missing_file "math_scene.mp4"))
       (fst (create_video_body missing_video_world sample_tutor
               "Solve x+1=2" fresh)),
     Return None).
Proof.
  apply (create_video_catches_Exception missing_video_world sample_tutor
           "Solve x+1=2" fresh
           (fst (create_video_body missing_video_world sample_tutor
                   "Solve x+1=2" fresh))
           (missing_file "math_scene.mp4")).
  eapply raised_in_remove_video.
  - vm_compute. reflexivity.
  - vm_compute. reflexivity.
  - vm_compute. reflexivity.
  - vm_compute. reflexivity.
  - vm_compute. reflexivity.
Defined.

(** C5: if either credential variable is absent, constructing the pipeline
    raises the configuration error and changes nothing: no call to the
    outside is made, nothing is printed, and [main] ends with that error
    before it reads the question or runs any step. *)
Theorem missing_key_fails_at_construction (w : World) (p : Process) :
  getenv w "OPENAI_API_KEY" = None \/ getenv w "ELEVENLABS_API_KEY" = None ->
  MathTutor_init w p
  = (p, Raise (Exn ValueError "API keys for OpenAI and ElevenLabs are required"))
  /\ main w p
     = (p, Raise (Exn ValueError "API keys for OpenAI and ElevenLabs are required")).
Proof.
  intros Habsent.
  assert (MathTutor_init w p
          = (p, Raise (Exn ValueError
                         "API keys for OpenAI and ElevenLabs are required")))
    as Hinit.
  { unfold MathTutor_init.
    destruct Habsent as [-> | ->]; cbn [py_not py_bool negb orb].
    - reflexivity.
    - rewrite orb_true_r. reflexivity. }
  split; [exact Hinit|].
  unfold main, bind. rewrite Hinit. reflexivity.
Qed.

Lemma missing_key_fails_at_construction_witness :
  main no_speech_key_world fresh
  = (fresh, Raise (Exn ValueError "API keys for OpenAI and ElevenLabs are required")).
Proof.
  apply (missing_key_fails_at_construction no_speech_key_world fresh).
  right. reflexivity.
Defined.

(** C6, as stated, fails: [nan_response] is not valid JSON, since [NaN] is
    no JSON value (the same text without that member is valid), yet
    [json.loads] accepts it; the pipeline runs to its end and
    [create_video] returns the path of a finished video, not [None]. *)
Lemma nan_response_is_rendered :
  valid_json nan_response = false
  /\ valid_json sample_response = true
  /\ snd (create_video nan_world sample_tutor "Solve x+1=2" fresh)
     = Return (Some "final_explanation.mp4")
  /\ fs (fst (create_video nan_world sample_tutor "Solve x+1=2" fresh))
       !! "final_explanation.mp4" = Some "video+audio".
Proof. repeat split; vm_compute; reflexivity. Qed.

(** C6, amended: if [json.loads] raises its parse error on the content of
    the first completion, that error leaves [generate_explanation]
    uncaught, [create_video] catches it, prints its line and returns
    [None]; no file is created or changed and no call to the engine, the
    speech service or the muxer is made. *)
Theorem invalid_json_gives_none (w : World) (self : MathTutor) (q : string)
  (p : Process) (content : string) (others : list string) (e : exn) :
  chat_completion w "gpt-4" [("user", prompt_for q)]
  = Return (content :: others) ->
  json_loads w content = Raise e ->
  exn_class_of e = JSONDecodeError ->
  generate_explanation w self q p = (with_call (chat_call q) p, Raise e)
  /\ create_video w self q p
     = (with_output (error_line e) (with_call (chat_call q) p), Return None)
  /\ fs (fst (create_video w self q p)) = fs p
  /\ calls (fst (create_video w self q p)) = calls p ++ [chat_call q].
Proof.
  intros Hchat Hparse Hclass.
  assert (generate_explanation w self q p = (with_call (chat_call q) p, Raise e))
    as Hg.
  { unfold generate_explanation. run_monad.
    rewrite Hchat. cbn. rewrite Hparse. reflexivity. }
  assert (is_Exception e = true) as He.
  { unfold is_Exception. rewrite Hclass. reflexivity. }
  destruct (try_block_propagates w self q p (with_call (chat_call q) p)
              p p PNone "" ∅ 0 e) as (Hbody & _).
  rewrite (create_video_on_raise w self q _ _ _ (Hbody Hg)), He.
  split; [exact Hg|]. repeat split.
Qed.

Lemma invalid_json_gives_none_witness :
  create_video prose_world sample_tutor "Solve x+1=2" fresh
  = (with_output
       (error_line (Exn JSONDecodeError "Expecting value: line 1 column 1 (char 0)"))
       (with_call (chat_call "Solve x+1=2") fresh),
     Return None).
Proof.
  apply (invalid_json_gives_none prose_world sample_tutor "Solve x+1=2" fresh
           "Sure! Here are the steps." []
           (Exn JSONDecodeError "Expecting value: line 1 column 1 (char 0)")).
  - reflexivity.
  - reflexivity.
  - reflexivity.
Defined.

(** C7: whenever [create_video] returns a path, that path is the output
    path, all four steps returned, both intermediate files are gone from the
    disk, and every other file, the muxed output among them, is as the muxer
    left it. *)
Theorem success_leaves_only_the_output (w : World) (self : MathTutor)
  (q : string) (p p' : Process) (path : string) :
  create_video w self q p = (p', Return (Some path)) ->
  path = "final_explanation.mp4"
  /\ fs p' !! "math_scene.mp4" = None
  /\ fs p' !! "narration.mp3" = None
  /\ exists p1 p2 p3 steps files code,
       generate_explanation w self q p = (p1, Return steps)
       /\ Scene_render w (mkMathScene steps) p1 = (p2, Return tt)
       /\ create_narration w self steps p2 = (p3, Return "narration.mp3")
       /\ run w mux_argv (fs p3) = (files, Return code)
       /\ fs p' = delete "narration.mp3" (delete "math_scene.mp4" files)
       /\ fs p' !! "final_explanation.mp4" = files !! "final_explanation.mp4".
Proof.
  unfold create_video, try_except_Exception.
  destruct (create_video_body w self q p) as [p'' [v|e]] eqn:Hbody.
  - intros H. injection H as -> ->.
    destruct (create_video_body_return_inv _ _ _ _ _ _ Hbody)
      as (p1 & p2 & p3 & steps & files & code
          & Hg & Hr & Hn & Hm & _ & _ & -> & Hpath).
    injection Hpath as ->. cbn [fs with_fs].
    split; [reflexivity|].
    split; [rewrite lookup_delete_ne by discriminate; apply lookup_delete_eq|].
    split; [apply lookup_delete_eq|].
    exists p1, p2, p3, steps, files, code.
    repeat split; try assumption.
    rewrite !lookup_delete_ne by discriminate. reflexivity.
  - destruct (is_Exception e); discriminate.
Qed.

Lemma success_leaves_only_the_output_witness :
  fs (fst (create_video working_world sample_tutor "Solve x+1=2" fresh))
     !! "math_scene.mp4" = None
  /\ fs (fst (create_video working_world sample_tutor "Solve x+1=2" fresh))
       !! "narration.mp3" = None
  /\ fs (fst (create_video working_world sample_tutor "Solve x+1=2" fresh))
       !! "final_explanation.mp4" = Some "video+audio".
Proof.
  destruct (success_leaves_only_the_output working_world sample_tutor
              "Solve x+1=2" fresh
              (fst (create_video working_world sample_tutor "Solve x+1=2" fresh))
              "final_explanation.mp4")
    as (_ & Hscene & Haudio & _).
  - vm_compute. reflexivity.
  - split; [assumption|]. split; [assumption|]. vm_compute. reflexivity.
Defined.



(** C10: whatever the question and whatever the services do, a value
    returned by [create_video] is [None] or the fixed string
    [final_explanation.mp4]; the only other way out is an exception that is
    not an instance of [Exception], which returns no value. *)
Theorem create_video_result_range (w : World) (self : MathTutor) (q : string)
  (p : Process) :
  match snd (create_video w self q p) with
  | Return v => v = None \/ v = Some "final_explanation.mp4"
  | Raise e => is_Exception e = false
  end.
Proof.
  unfold create_video, try_except_Exception.
  destruct (create_video_body w self q p) as [p' [v|e]] eqn:Hbody.
  - right.
    destruct (create_video_body_return_inv _ _ _ _ _ _ Hbody)
      as (? & ? & ? & ? & ? & ? & _ & _ & _ & _ & _ & _ & _ & Hv).
    exact Hv.
  - destruct (is_Exception e) eqn:He; [left; reflexivity | exact He].
Qed.

(** ** Further properties of [construct] *)

Lemma elements_app (k : kind) (tl1 tl2 : list event) :
  elements k (tl1 ++ tl2) = elements k tl1 ++ elements k tl2.
Proof. unfold elements. rewrite shown_app, filter_app. reflexivity. Qed.

Lemma arrows_loop_events (l : list Step) :
  forall k : nat,
    elements ArrowMark (loop_events (3 - Z.of_nat k) l)
    = imap (fun i s => arrow_below (equation_at (k + i) s)) (take (5 - k) l).
Proof.
  induction l as [|s l IH]; intros k.
  - rewrite take_nil. reflexivity.
  - cbn [loop_events]. rewrite elements_app. unfold step_events.
    replace (3 - Z.of_nat k - 1) with (3 - Z.of_nat (S k)) by lia.
    rewrite IH.
    destruct (Z.gtb_spec (3 - Z.of_nat (S k)) (-3)) as [Hlt|Hge].
    + replace (5 - k)%nat with (S (5 - S k)) by lia.
      cbn [take]. rewrite imap_cons. unfold equation_at at 1.
      rewrite Nat.add_0_r.
      change (elements ArrowMark _)
        with [arrow_below (shift (MathTex (PStr (equation s)))
                             (Vec 0 (3 - Z.of_nat k) 0))].
      cbn [app]. f_equal. apply imap_ext. intros i x _. cbn.
      replace (k + S i)%nat with (S (k + i)) by lia. reflexivity.
    + replace (5 - S k)%nat with 0%nat by lia.
      replace (5 - k)%nat with 0%nat by lia. reflexivity.
Qed.

(** The arrows [construct] draws on a StepSequence are, in order, those
    below the equations of its first five steps, and no others: the guard
    looks at the vertical position, not at whether a step follows. *)
Theorem construct_arrows (l : list Step) :
  elements ArrowMark (rendered (steps_value l))
  = imap (fun i s => arrow_below (equation_at i s)) (take 5 l).
Proof.
  rewrite rendered_steps, elements_app, app_nil_r.
  apply (arrows_loop_events l 0).
Qed.

Lemma for_loop_app {S L X} (body : L -> X -> M S L) (xs ys : list X) :
  forall (l : L) (s : S),
    for_loop body (xs ++ ys) l s
    = bind (for_loop body xs l) (fun l' => for_loop body ys l') s.
Proof.
  induction xs as [|x xs IH]; intros l s; [reflexivity|].
  cbn [app for_loop]. unfold bind.
  destruct (body l x s) as [s' [l'|e]]; [|reflexivity].
  rewrite IH. reflexivity.
Qed.

Lemma construct_stops_at (l : list Step) (bad : pyval) (rest : list pyval)
  (e : exn) :
  (forall loc sc, construct_step loc bad sc = (sc, Raise e)) ->
  construct (mkMathScene (PList (map step_value l ++ bad :: rest)))
    (mkScene [])
  = (mkScene (loop_events 3 l), Raise e).
Proof.
  intros Hstep.
  unfold construct. cbn [steps py_iter]. unfold bind at 1, lift at 1.
  unfold bind at 1. rewrite for_loop_app. unfold bind at 1.
  destruct (for_loop_steps l (mkLocals 3 []) (mkScene [])) as [eqs ->].
  cbn [for_loop timeline app current_y]. unfold bind at 1.
  rewrite Hstep. reflexivity.
Qed.

Lemma construct_step_missing_equation (items : list (string * pyval)) :
  dict_get items "equation" = None ->
  forall loc sc,
    construct_step loc (PDict items) sc = (sc, Raise (Exn KeyError "'equation'")).
Proof.
  intros Heq loc sc. unfold construct_step, bind, lift. cbn [py_getitem].
  rewrite Heq. reflexivity.
Qed.

Lemma construct_step_missing_explanation (items : list (string * pyval))
  (tex : pyval) :
  dict_get items "equation" = Some tex ->
  dict_get items "explanation" = None ->
  forall loc sc,
    construct_step loc (PDict items) sc
    = (sc, Raise (Exn KeyError "'explanation'")).
Proof.
  intros Heq Hex loc sc. unfold construct_step, bind, lift. cbn [py_getitem].
  rewrite Heq, Hex. reflexivity.
Qed.

(** When the step at some index is an object without its [equation] or its
    [explanation] key, [construct] raises [KeyError] for the first key it
    misses: for [equation] when that one is absent, whether or not
    [explanation] is there, and for [explanation] otherwise.  The steps
    before are shown in full, nothing of the faulty step or of the later
    ones is, and the closing pause is not reached. *)
Theorem construct_missing_key (l : list Step) (items : list (string * pyval))
  (rest : list pyval) :
  dict_get items "equation" = None \/ dict_get items "explanation" = None ->
  exists sc,
    construct (mkMathScene (PList (map step_value l ++ PDict items :: rest)))
      (mkScene [])
    = (sc,
       Raise (Exn KeyError
                (quote (match dict_get items "equation" with
                        | None => "equation"
                        | Some _ => "explanation"
                        end))))
    /\ timeline sc ++ [Wait 2] = rendered (steps_value l).
Proof.
  intros Hmissing. exists (mkScene (loop_events 3 l)).
  split; [|rewrite rendered_steps; reflexivity].
  apply construct_stops_at.
  destruct (dict_get items "equation") as [tex|] eqn:Heq.
  - destruct Hmissing as [Hm|Hex]; [discriminate|].
    apply (construct_step_missing_explanation items tex Heq Hex).
  - apply (construct_step_missing_equation items Heq).
Qed.

Lemma construct_missing_key_witness :
  exists sc,
    construct
      (mkMathScene
         (PList (map step_value [sample_step]
                 ++ PDict [("narration", PStr "so x = 1")] :: [])))
      (mkScene [])
    = (sc, Raise (Exn KeyError "'equation'"))
    /\ timeline sc ++ [Wait 2] = rendered (steps_value [sample_step]).
Proof.
  apply (construct_missing_key [sample_step]
           [("narration", PStr "so x = 1")] []).
  right. reflexivity.
Defined.

(** On a parsed value that is not a list, [construct] shows no element.
    An empty object and an empty string have no items: [construct] returns
    after the closing pause alone.  Every other value raises [TypeError]
    before anything is played: a non-empty object or string is iterated by
    key or by character, on which subscripting fails, and [None], a boolean
    or a number cannot be iterated. *)
Theorem construct_not_a_list (v : pyval) :
  (forall items, v <> PList items) ->
  match v with
  | PDict [] | PStr EmptyString =>
      construct (mkMathScene v) (mkScene []) = (mkScene [Wait 2], Return tt)
  | _ =>
      exists e,
        construct (mkMathScene v) (mkScene []) = (mkScene [], Raise e)
        /\ exn_class_of e = TypeError
  end.
Proof.
  intros Hv. destruct v as [| b | n | f | s | items | items].
  - eexists. split; reflexivity.
  - eexists. split; reflexivity.
  - eexists. split; reflexivity.
  - eexists. split; reflexivity.
  - destruct s as [|c s]; [reflexivity|]. eexists. split; reflexivity.
  - destruct (Hv items). reflexivity.
  - destruct items as [|[k x] items]; [reflexivity|].
    eexists. split; reflexivity.
Qed.

Lemma construct_not_a_list_witness :
  construct (mkMathScene (PDict [])) (mkScene [])
  = (mkScene [Wait 2], Return tt)
  /\ exists e,
       construct (mkMathScene (PDict [("steps", PList [])])) (mkScene [])
       = (mkScene [], Raise e)
       /\ exn_class_of e = TypeError.
Proof.
  split.
  - apply (construct_not_a_list (PDict [])). discriminate.
  - apply (construct_not_a_list (PDict [("steps", PList [])])). discriminate.
Defined.

(** ** Further properties of [MathTutor] *)

Lemma generate_items_app {A B} (f : A -> result B) (xs ys : list A) :
  generate_items f (xs ++ ys)
  = match generate_items f xs with
    | Raise e => Raise e
    | Return bs =>
        match generate_items f ys with
        | Raise e => Raise e
        | Return cs => Return (bs ++ cs)
        end
    end.
Proof.
  induction xs as [|x xs IH]; cbn [app generate_items].
  - destruct (generate_items f ys); reflexivity.
  - destruct (f x) as [b|e]; [|reflexivity]. rewrite IH.
    destruct (generate_items f xs) as [bs|e]; [|reflexivity].
    destruct (generate_items f ys); reflexivity.
Qed.

Lemma join_check_app_bad (ss : list string) (v : pyval) (rest : list pyval) :
  (forall s, v <> PStr s) ->
  forall i,
    join_check (map PStr ss ++ v :: rest) i
    = Raise (Exn TypeError
               ("sequence item " +:+ pretty (Z.of_nat (i + length ss))
                +:+ ": expected str instance, " +:+ type_name v +:+ " found")).
Proof.
  intros Hv. induction ss as [|s ss IH]; intros i.
  - cbn [map app length join_check]. rewrite Nat.add_0_r.
    destruct v; try reflexivity. destruct (Hv s). reflexivity.
  - cbn [map app length join_check]. rewrite IH.
    replace (S i + length ss)%nat with (i + S (length ss))%nat by lia.
    reflexivity.
Qed.

(** When a step is an object without a [narration] key, [create_narration]
    raises [KeyError] for it and nothing else happens: the speech service
    is not called and no file is written. *)
Theorem create_narration_missing_key (w : World) (self : MathTutor)
  (l : list Step) (items : list (string * pyval)) (rest : list pyval)
  (p : Process) :
  dict_get items "narration" = None ->
  create_narration w self (PList (map step_value l ++ PDict items :: rest)) p
  = (p, Raise (Exn KeyError "'narration'")).
Proof.
  intros Hmissing.
  unfold create_narration, bind at 1, lift, full_narration. cbn [py_iter].
  rewrite generate_items_app, narration_items.
  cbn [generate_items py_getitem]. rewrite Hmissing. reflexivity.
Qed.

Lemma create_narration_missing_key_witness :
  create_narration working_world sample_tutor
    (PList (map step_value [sample_step]
            ++ PDict [("equation", PStr "x=1"); ("explanation", PStr "done")]
               :: []))
    fresh
  = (fresh, Raise (Exn KeyError "'narration'")).
Proof.
  apply (create_narration_missing_key working_world sample_tutor
           [sample_step]
           [("equation", PStr "x=1"); ("explanation", PStr "done")] [] fresh).
  reflexivity.
Defined.

(** When the narration of the step at index [k] is not a string, while the
    other steps are well formed, [create_narration] raises the [TypeError]
    of [str.join] that names item [k] and the type found; the speech service
    is not called and no file is written. *)
Theorem create_narration_not_a_string (w : World) (self : MathTutor)
  (l l' : list Step) (items : list (string * pyval)) (v : pyval)
  (p : Process) :
  dict_get items "narration" = Some v ->
  (forall s, v <> PStr s) ->
  create_narration w self
    (PList (map step_value l ++ PDict items :: map step_value l')) p
  = (p, Raise (Exn TypeError
                 ("sequence item " +:+ pretty (Z.of_nat (length l))
                  +:+ ": expected str instance, " +:+ type_name v
                  +:+ " found"))).
Proof.
  intros Hget Hv.
  unfold create_narration, bind at 1, lift, full_narration. cbn [py_iter].
  rewrite generate_items_app, narration_items.
  cbn [generate_items py_getitem]. rewrite Hget, narration_items.
  unfold str_join. rewrite (join_check_app_bad _ v _ Hv 0).
  rewrite length_map. reflexivity.
Qed.

Lemma create_narration_not_a_string_witness :
  create_narration working_world sample_tutor
    (PList (map step_value [sample_step]
            ++ PDict [("narration", PInt 7)] :: map step_value []))
    fresh
  = (fresh,
     Raise (Exn TypeError "sequence item 1: expected str instance, int found")).
Proof.
  apply (create_narration_not_a_string working_world sample_tutor
           [sample_step] [] [("narration", PInt 7)] (PInt 7) fresh).
  - reflexivity.
  - discriminate.
Defined.

Lemma create_narration_return_inv (w : World) (self : MathTutor)
  (steps : pyval) (p p' : Process) (a : string) :
  create_narration w self steps p = (p', Return a) ->
  a = "narration.mp3"
  /\ exists text audio,
       full_narration steps = Return text
       /\ generate w text "Bella" "eleven_multilingual_v1" = Return audio
       /\ calls p' = calls p
                     ++ [CallGenerate text "Bella" "eleven_multilingual_v1";
                         CallSave audio "narration.mp3"]
       /\ fs p' = fst (save w audio "narration.mp3" (fs p))
       /\ stdout p' = stdout p.
Proof.
  unfold create_narration. run_monad.
  destruct (full_narration steps) as [text|e]; [|discriminate].
  destruct (generate w text "Bella" "eleven_multilingual_v1")
    as [audio|e] eqn:Hgen; [|discriminate].
  destruct (save w audio "narration.mp3" (fs p)) as [files [[]|e]] eqn:Hsave;
    [|discriminate].
  intros H. injection H as <- <-. split; [reflexivity|].
  exists text, audio. cbn. rewrite <- app_assoc, Hsave.
  repeat split. exact Hgen.
Qed.

(** Whenever [create_narration] returns, it returns [narration.mp3], and on
    the way it has made exactly two calls: one to generate the speech for
    the joined narration with the fixed voice and model, then one to save
    the audio that call returned under [narration.mp3]. *)
Theorem create_narration_saves_generated_audio (w : World) (self : MathTutor)
  (steps : pyval) (p p' : Process) (a : string) :
  create_narration w self steps p = (p', Return a) ->
  a = "narration.mp3"
  /\ exists text audio,
       full_narration steps = Return text
       /\ generate w text "Bella" "eleven_multilingual_v1" = Return audio
       /\ calls p' = calls p
                     ++ [CallGenerate text "Bella" "eleven_multilingual_v1";
                         CallSave audio "narration.mp3"]
       /\ fs p' = fst (save w audio "narration.mp3" (fs p))
       /\ stdout p' = stdout p.
Proof.
  unfold create_narration. run_monad.
  destruct (full_narration steps) as [text|e]; [|discriminate].
  destruct (generate w text "Bella" "eleven_multilingual_v1")
    as [audio|e] eqn:Hgen; [|discriminate].
  destruct (save w audio "narration.mp3" (fs p)) as [files [[]|e]] eqn:Hsave;
    [|discriminate].
  intros H. injection H as <- <-. split; [reflexivity|].
  exists text, audio. cbn. rewrite <- app_assoc, Hsave.
  repeat split. exact Hgen.
Qed.

Lemma create_narration_saves_generated_audio_witness :
  exists text audio,
    full_narration (steps_value [sample_step]) = Return text
    /\ generate working_world text "Bella" "eleven_multilingual_v1"
       = Return audio
    /\ fs (fst (create_narration working_world sample_tutor
                  (steps_value [sample_step]) fresh))
       = fst (save working_world audio "narration.mp3" (fs fresh)).
Proof.
  destruct (create_narration_saves_generated_audio working_world sample_tutor
              (steps_value [sample_step]) fresh
              (fst (create_narration working_world sample_tutor
                      (steps_value [sample_step]) fresh))
              "narration.mp3")
    as (_ & text & audio & Ht & Hg & _ & Hfs & _).
  - vm_compute. reflexivity.
  - exists text, audio. repeat split; assumption.
Defined.

(** [MathTutor.__init__] returns exactly when both credential variables
    hold a non-empty string: it then keeps both and stores the first in
    [openai.api_key], changing nothing else.  Otherwise, also when a
    variable is set to the empty string, it raises the configuration error
    and changes nothing. *)
Theorem MathTutor_init_outcome (w : World) (p : Process) :
  match MathTutor_init w p with
  | (p', Return t) =>
      exists a b,
        getenv w "OPENAI_API_KEY" = Some a /\ a <> ""
        /\ getenv w "ELEVENLABS_API_KEY" = Some b /\ b <> ""
        /\ t = mkMathTutor (Some a) (Some b)
        /\ p' = with_api_key (Some a) p
  | (p', Raise e) =>
      e = Exn ValueError "API keys for OpenAI and ElevenLabs are required"
      /\ p' = p
      /\ (getenv w "OPENAI_API_KEY" = None
          \/ getenv w "OPENAI_API_KEY" = Some ""
          \/ getenv w "ELEVENLABS_API_KEY" = None
          \/ getenv w "ELEVENLABS_API_KEY" = Some "")
  end.
Proof.
  unfold MathTutor_init, py_not, py_bool.
  destruct (getenv w "OPENAI_API_KEY") as [a|];
    [|cbn; repeat split; left; reflexivity].
  destruct (String.eqb_spec a "") as [->|Ha];
    [cbn; repeat split; right; left; reflexivity|].
  destruct (getenv w "ELEVENLABS_API_KEY") as [b|];
    [|cbn; repeat split; right; right; left; reflexivity].
  destruct (String.eqb_spec b "") as [->|Hb];
    [cbn; repeat split; right; right; right; reflexivity|].
  cbn. exists a, b. repeat split; assumption.
Qed.

Lemma generate_explanation_state (w : World) (self : MathTutor)
  (q : string) (p : Process) :
  fst (generate_explanation w self q p) = with_call (chat_call q) p.
Proof.
  unfold generate_explanation. run_monad.
  destruct (chat_completion w _ _) as [response|e]; [|reflexivity].
  destruct (first_item response); reflexivity.
Qed.

(** [generate_explanation] makes one call to the outside, the chat
    completion for model [gpt-4] with the single user message built from the
    question, and changes nothing else, whether it returns or raises. *)
Theorem generate_explanation_one_call (w : World) (self : MathTutor)
  (q : string) (p : Process) :
  fst (generate_explanation w self q p)
  = with_call (CallChatCompletion "gpt-4" [("user", prompt_for q)]) p.
Proof.
  unfold generate_explanation. run_monad.
  destruct (chat_completion w "gpt-4" [("user", prompt_for q)])
    as [response|e]; [|reflexivity].
  destruct (first_item response) as [content|e]; reflexivity.
Qed.

(** When the response has no completion at all, taking the first one raises
    [IndexError]; [create_video] catches it, prints its line and returns
    [None], and no file is touched. *)
Theorem no_completion_gives_none (w : World) (self : MathTutor) (q : string)
  (p : Process) :
  chat_completion w "gpt-4" [("user", prompt_for q)] = Return [] ->
  snd (generate_explanation w self q p)
  = Raise (Exn IndexError "list index out of range")
  /\ create_video w self q p
     = (with_output ("Error creating video: list index out of range" +:+ LF)
          (with_call (chat_call q) p),
        Return None).
Proof.
  intros Hchat.
  assert (generate_explanation w self q p
          = (with_call (chat_call q) p,
             Raise (Exn IndexError "list index out of range"))) as Hg.
  { unfold generate_explanation. run_monad. rewrite Hchat. reflexivity. }
  rewrite Hg. split; [reflexivity|].
  destruct (try_block_propagates w self q p (with_call (chat_call q) p)
              p p PNone "" ∅ 0 (Exn IndexError "list index out of range"))
    as (Hbody & _).
  rewrite (create_video_on_raise w self q _ _ _ (Hbody Hg)). reflexivity.
Qed.

Lemma no_completion_gives_none_witness :
  snd (create_video no_completion_world sample_tutor "Solve x+1=2" fresh)
  = Return None.
Proof.
  destruct (no_completion_gives_none no_completion_world sample_tutor
              "Solve x+1=2" fresh) as [_ ->].
  - reflexivity.
  - reflexivity.
Defined.

(** ** Further properties of [create_video] and [main] *)

Lemma generate_explanation_return_inv (w : World) (self : MathTutor)
  (q : string) (p p1 : Process) (v : pyval) :
  generate_explanation w self q p = (p1, Return v) ->
  p1 = with_call (chat_call q) p
  /\ exists content others,
       chat_completion w "gpt-4" [("user", prompt_for q)]
       = Return (content :: others)
       /\ json_loads w content = Return v.
Proof.
  unfold generate_explanation. run_monad.
  destruct (chat_completion w _ _) as [[|content others]|e];
    [discriminate| |discriminate].
  cbn. intros H. injection H as <- H. split; [reflexivity|].
  exists content, others. split; [reflexivity | exact H].
Qed.

Lemma create_video_body_stdout (w : World) (self : MathTutor) (q : string)
  (p : Process) :
  stdout (fst (create_video_body w self q p)) = stdout p.
Proof.
  unfold create_video_body. unfold bind at 1.
  pose proof (generate_explanation_stdout w self q p) as Hg.
  destruct (generate_explanation w self q p) as [p1 [steps|e]];
    cbn [fst] in Hg; [|exact Hg].
  unfold bind at 1.
  pose proof (Scene_render_stdout w (mkMathScene steps) p1) as Hr.
  destruct (Scene_render w (mkMathScene steps) p1) as [p2 [[]|e]];
    cbn [fst] in Hr |- *; [|congruence].
  unfold bind at 1.
  pose proof (create_narration_stdout w self steps p2) as Hn.
  destruct (create_narration w self steps p2) as [p3 [a|e]];
    cbn [fst] in Hn |- *; [|congruence].
  run_monad.
  destruct (run w _ (fs p3)) as [files [code|e]]; cbn; [|congruence].
  destruct (files !! "math_scene.mp4"); cbn; [|congruence].
  destruct (delete "math_scene.mp4" files !! a); cbn; congruence.
Qed.

(** [create_video] writes to standard output exactly when it returns
    [None], and then one line: [Error creating video: ] followed by the
    [str] of the very exception its [try] block raised.  When the block
    returns, [create_video] returns the same value, which is the output
    path, and prints nothing; when the block raises an exception that is
    not an instance of [Exception], that exception leaves [create_video]
    and nothing is printed. *)
Theorem create_video_prints_iff_none (w : World) (self : MathTutor)
  (q : string) (p : Process) :
  match snd (create_video_body w self q p) with
  | Return v =>
      v = Some "final_explanation.mp4"
      /\ snd (create_video w self q p) = Return v
      /\ stdout (fst (create_video w self q p)) = stdout p
  | Raise e =>
      if is_Exception e then
        snd (create_video w self q p) = Return None
        /\ stdout (fst (create_video w self q p))
           = stdout p ++ ["Error creating video: " +:+ exn_str e +:+ LF]
      else
        snd (create_video w self q p) = Raise e
        /\ stdout (fst (create_video w self q p)) = stdout p
  end.
Proof.
  pose proof (create_video_body_stdout w self q p) as Hout.
  unfold create_video, try_except_Exception.
  destruct (create_video_body w self q p) as [p' [v|e]] eqn:Hbody;
    cbn [fst snd] in Hout |- *.
  - destruct (create_video_body_return_inv _ _ _ _ _ _ Hbody)
      as (? & ? & ? & ? & ? & ? & _ & _ & _ & _ & _ & _ & _ & ->).
    repeat split. exact Hout.
  - destruct (is_Exception e); unfold bind, print, modify, ret;
      cbn [fst snd stdout with_output].
    + rewrite Hout. split; reflexivity.
    + split; [reflexivity | exact Hout].
Qed.

(** The calls [create_video] makes to the outside are the fixed sequence
    chat completion, render, generate speech, save audio, run [ffmpeg],
    cut after the first step that fails: the chat completion is always
    called; the render, on the parsed value, only if the first step
    returned; the speech service only if the render returned and the
    narration could be joined; the save only if the speech was generated;
    [ffmpeg] only if the audio was saved.  No step is called twice, and
    none after a step has failed. *)
Theorem create_video_calls_in_order (w : World) (self : MathTutor)
  (q : string) (p : Process) :
  calls (fst (create_video w self q p))
  = calls p
    ++ chat_call q
       :: match generate_explanation w self q p with
          | (_, Raise _) => []
          | (p1, Return steps) =>
              CallRender (rendered steps)
              :: match Scene_render w (mkMathScene steps) p1,
                       full_narration steps with
                 | (_, Raise _), _ => []
                 | (_, Return _), Raise _ => []
                 | (p2, Return _), Return text =>
                     CallGenerate text "Bella" "eleven_multilingual_v1"
                     :: match generate w text "Bella" "eleven_multilingual_v1"
                        with
                        | Raise _ => []
                        | Return audio =>
                            CallSave audio "narration.mp3"
                            :: match
                                 snd (save w audio "narration.mp3" (fs p2))
                               with
                               | Raise _ => []
                               | Return _ => [CallSubprocess mux_argv]
                               end
                        end
                 end
          end.
Proof.
  assert (forall (r : Process * result (option string)),
             calls (fst (try_except_Exception (fun _ => r)
                           (fun e => print ("Error creating video: "
                                            +:+ exn_str e) ;;; ret None) p))
             = calls (fst r)) as Hhandler.
  { intros [p' [v|e]]; unfold try_except_Exception; [reflexivity|].
    destruct (is_Exception e); reflexivity. }
  change (create_video w self q p)
    with (try_except_Exception (fun _ => create_video_body w self q p)
            (fun e => print ("Error creating video: " +:+ exn_str e) ;;;
                      ret None) p).
  rewrite Hhandler. clear Hhandler.
  unfold create_video_body. unfold bind at 1.
  pose proof (generate_explanation_state w self q p) as Hg.
  destruct (generate_explanation w self q p) as [p1 [steps|e]];
    cbn [fst] in Hg; subst p1; [|reflexivity].
  unfold bind at 1.
  destruct (Scene_render w (mkMathScene steps) (with_call (chat_call q) p))
    as [p2 r2] eqn:Hr.
  pose proof (Scene_render_calls _ _ _ _ _ Hr) as Hp2.
  cbn [calls with_call] in Hp2.
  destruct r2 as [[]|e].
  2:{ cbn [fst]. rewrite Hp2, <- app_assoc. reflexivity. }
  unfold bind at 1. unfold create_narration at 1. unfold bind at 1, lift at 1.
  destruct (full_narration steps) as [text|e].
  2:{ cbn [fst]. rewrite Hp2, <- app_assoc. reflexivity. }
  unfold bind at 1, external at 1.
  destruct (generate w text "Bella" "eleven_multilingual_v1") as [audio|e].
  2:{ cbn [fst calls with_call]. rewrite Hp2, <- !app_assoc. reflexivity. }
  run_monad.
  destruct (save w audio "narration.mp3" (fs p2)) as [files [[]|e]].
  2:{ cbn [fst snd calls with_fs with_call].
      rewrite Hp2, <- !app_assoc. reflexivity. }
  cbn [fs snd calls with_fs with_call].
  destruct (run w _ files) as [files' [code|e]].
  2:{ cbn [fst calls with_fs with_call].
      rewrite Hp2, <- !app_assoc. reflexivity. }
  cbn [fs calls with_fs with_call].
  destruct (files' !! "math_scene.mp4").
  2:{ cbn [fst calls with_fs with_call].
      rewrite Hp2, <- !app_assoc. reflexivity. }
  cbn [fs calls with_fs with_call].
  destruct (delete "math_scene.mp4" files' !! "narration.mp3");
    cbn [fst calls with_fs with_call];
    rewrite Hp2, <- !app_assoc; reflexivity.
Qed.

(** Whenever [create_video] returns a path, every step ran once and in
    order, and the renderer and the narrator both worked on the very value
    parsed from the first completion: the calls made are the chat
    completion, the render of that value's timeline, the speech for that
    value's joined narration, the save of the audio returned, and [ffmpeg]
    on the fixed file names. *)
Theorem create_video_success_calls (w : World) (self : MathTutor) (q : string)
  (p p' : Process) (path : string) :
  create_video w self q p = (p', Return (Some path)) ->
  exists content others steps text audio,
    chat_completion w "gpt-4" [("user", prompt_for q)]
    = Return (content :: others)
    /\ json_loads w content = Return steps
    /\ full_narration steps = Return text
    /\ generate w text "Bella" "eleven_multilingual_v1" = Return audio
    /\ calls p'
       = calls p
         ++ [chat_call q; CallRender (rendered steps);
             CallGenerate text "Bella" "eleven_multilingual_v1";
             CallSave audio "narration.mp3"; CallSubprocess mux_argv].
Proof.
  unfold create_video, try_except_Exception.
  destruct (create_video_body w self q p) as [p'' [v|e]] eqn:Hbody;
    [|destruct (is_Exception e); discriminate].
  intros H. injection H as -> ->.
  destruct (create_video_body_return_inv _ _ _ _ _ _ Hbody)
    as (p1 & p2 & p3 & steps & files & code
        & Hg & Hr & Hn & Hm & _ & _ & -> & _).
  destruct (generate_explanation_return_inv _ _ _ _ _ _ Hg)
    as (-> & content & others & Hchat & Hparse).
  pose proof (Scene_render_calls _ _ _ _ _ Hr) as Hp2.
  destruct (create_narration_return_inv _ _ _ _ _ _ Hn)
    as (_ & text & audio & Htext & Hgen & Hp3 & _ & _).
  exists content, others, steps, text, audio.
  repeat split; try assumption.
  cbn [calls with_fs with_call] in *. rewrite Hp3, Hp2, <- !app_assoc.
  reflexivity.
Qed.

Lemma create_video_success_calls_witness :
  exists content others steps text audio,
    chat_completion working_world "gpt-4" [("user", prompt_for "Solve x+1=2")]
    = Return (content :: others)
    /\ json_loads working_world content = Return steps
    /\ full_narration steps = Return text
    /\ generate working_world text "Bella" "eleven_multilingual_v1"
       = Return audio
    /\ calls (fst (create_video working_world sample_tutor "Solve x+1=2" fresh))
       = calls fresh
         ++ [chat_call "Solve x+1=2"; CallRender (rendered steps);
             CallGenerate text "Bella" "eleven_multilingual_v1";
             CallSave audio "narration.mp3"; CallSubprocess mux_argv].
Proof.
  apply (create_video_success_calls working_world sample_tutor "Solve x+1=2"
           fresh _ "final_explanation.mp4").
  vm_compute. reflexivity.
Defined.

(** There is no cleanup on failure.  When the speech service raises after
    the video was rendered, [create_video] prints the error and returns
    [None], the muxer is not run, and the files are left as the renderer
    left them: the rendered video is neither used nor removed. *)
Theorem speech_failure_keeps_video (w : World) (self : MathTutor) (q : string)
  (p p1 p2 : Process) (steps : pyval) (text : string) (e : exn) :
  generate_explanation w self q p = (p1, Return steps) ->
  Scene_render w (mkMathScene steps) p1 = (p2, Return tt) ->
  full_narration steps = Return text ->
  generate w text "Bella" "eleven_multilingual_v1" = Raise e ->
  is_Exception e = true ->
  create_video w self q p
  = (with_output (error_line e)
       (with_call (CallGenerate text "Bella" "eleven_multilingual_v1") p2),
     Return None)
  /\ fs (fst (create_video w self q p)) = fs p2.
Proof.
  intros Hg Hr Htext Hgen He.
  assert (create_narration w self steps p2
          = (with_call (CallGenerate text "Bella" "eleven_multilingual_v1") p2,
             Raise e)) as Hn.
  { unfold create_narration. run_monad. rewrite Htext, Hgen. reflexivity. }
  destruct (try_block_propagates w self q p p1 p2
              (with_call (CallGenerate text "Bella" "eleven_multilingual_v1") p2)
              steps "" ∅ 0 e) as (_ & _ & Hbody & _).
  rewrite (create_video_on_raise w self q _ _ _ (Hbody Hg Hr Hn)), He.
  split; reflexivity.
Qed.

Lemma speech_failure_keeps_video_witness :
  snd (create_video speech_down_world sample_tutor "Solve x+1=2" fresh)
  = Return None
  /\ fs (fst (create_video speech_down_world sample_tutor "Solve x+1=2" fresh))
       !! "math_scene.mp4" = Some "video".
Proof.
  destruct (speech_failure_keeps_video speech_down_world sample_tutor
              "Solve x+1=2" fresh
              (fst (generate_explanation speech_down_world sample_tutor
                      "Solve x+1=2" fresh))
              (fst (Scene_render speech_down_world
                      (mkMathScene (steps_value [sample_step]))
                      (fst (generate_explanation speech_down_world sample_tutor
                              "Solve x+1=2" fresh))))
              (steps_value [sample_step])
              "We subtract one from both sides."
              (Exn (LibraryError "RateLimitError") "quota exceeded"))
    as [Hv Hfs].
  - vm_compute. reflexivity.
  - vm_compute. reflexivity.
  - reflexivity.
  - reflexivity.
  - reflexivity.
  - rewrite Hv. split; [reflexivity | vm_compute; reflexivity].
Defined.

(** The cleanup can stop half way.  When the muxer has returned, the video
    file is on disk but the audio file is not, [create_video] removes the
    video, then fails on the audio: it prints that error and returns
    [None], although it has already deleted the video. *)
Theorem cleanup_stops_half_way (w : World) (self : MathTutor) (q : string)
  (p p1 p2 p3 : Process) (steps : pyval) (a : string)
  (files : gmap string string) (code : Z) :
  generate_explanation w self q p = (p1, Return steps) ->
  Scene_render w (mkMathScene steps) p1 = (p2, Return tt) ->
  create_narration w self steps p2 = (p3, Return a) ->
  run w mux_argv (fs p3) = (files, Return code) ->
  is_Some (files !! "math_scene.mp4") ->
  files !! "narration.mp3" = None ->
  create_video w self q p
  = (with_output (error_line (missing_file "narration.mp3"))
       (with_fs (delete "math_scene.mp4" files)
          (with_call (CallSubprocess mux_argv) p3)),
     Return None).
Proof.
  intros Hg Hr Hn Hm [video Hv] Ha.
  pose proof (create_narration_returns _ _ _ _ _ _ Hn) as ->.
  assert (create_video_body w self q p
          = (with_fs (delete "math_scene.mp4" files)
               (with_call (CallSubprocess mux_argv) p3),
             Raise (missing_file "narration.mp3"))) as Hbody.
  { unfold create_video_body, bind. rewrite Hg, Hr, Hn. run_monad.
    rewrite Hm. cbn [fs with_fs]. rewrite Hv. cbn [fs with_fs].
    rewrite lookup_delete_ne by discriminate. rewrite Ha. reflexivity. }
  rewrite (create_video_on_raise w self q _ _ _ Hbody). reflexivity.
Qed.

Lemma cleanup_stops_half_way_witness :
  snd (create_video lost_audio_world sample_tutor "Solve x+1=2" fresh)
  = Return None
  /\ fs (fst (create_video lost_audio_world sample_tutor "Solve x+1=2" fresh))
       !! "math_scene.mp4" = None.
Proof.
  rewrite (cleanup_stops_half_way lost_audio_world sample_tutor
             "Solve x+1=2" fresh
             (fst (generate_explanation lost_audio_world sample_tutor
                     "Solve x+1=2" fresh))
             (fst (Scene_render lost_audio_world
                     (mkMathScene (steps_value [sample_step]))
                     (fst (generate_explanation lost_audio_world sample_tutor
                             "Solve x+1=2" fresh))))
             (fst (create_narration lost_audio_world sample_tutor
                     (steps_value [sample_step])
                     (fst (Scene_render lost_audio_world
                             (mkMathScene (steps_value [sample_step]))
                             (fst (generate_explanation lost_audio_world
                                     sample_tutor "Solve x+1=2" fresh))))))
             (steps_value [sample_step]) "narration.mp3"
             (<["out/narration.mp3" := "speech:We subtract one from both sides."]>
                (<["math_scene.mp4" := "video"]> ∅)) 1).
  - split; [reflexivity | vm_compute; reflexivity].
  - vm_compute. reflexivity.
  - vm_compute. reflexivity.
  - vm_compute. reflexivity.
  - vm_compute. reflexivity.
  - eexists. vm_compute. reflexivity.
  - vm_compute. reflexivity.
Defined.

Section OtherFiles.

Variables (w : World) (self : MathTutor) (q : string) (x : string).

Hypothesis x_not_video : x <> "math_scene.mp4".
Hypothesis x_not_audio : x <> "narration.mp3".
Hypothesis engine_keeps_x :
  forall tl built files, fst (engine_output w tl built files) !! x = files !! x.
Hypothesis save_keeps_x :
  forall audio files,
    fst (save w audio "narration.mp3" files) !! x = files !! x.
Hypothesis run_keeps_x :
  forall files,
    fst (run w (ffmpeg_argv "math_scene.mp4" "narration.mp3"
                  "final_explanation.mp4") files) !! x
    = files !! x.

Lemma Scene_render_keeps_x (scene : MathScene) (p : Process) :
  fs (fst (Scene_render w scene p)) !! x = fs p !! x.
Proof.
  unfold Scene_render.
  destruct (construct scene (mkScene [])) as [sc built].
  pose proof (engine_keeps_x (timeline sc) built (fs p)) as H.
  destruct (engine_output w _ _ _). exact H.
Qed.

Lemma create_narration_keeps_x (steps : pyval) (p : Process) :
  fs (fst (create_narration w self steps p)) !! x = fs p !! x.
Proof.
  unfold create_narration. run_monad.
  destruct (full_narration steps) as [text|e]; [|reflexivity].
  destruct (generate w _ _ _) as [audio|e]; [|reflexivity].
  pose proof (save_keeps_x audio (fs p)) as H.
  destruct (save w audio "narration.mp3" (fs p)) as [files [[]|e]]; exact H.
Qed.

Lemma create_video_body_keeps_x (p : Process) :
  fs (fst (create_video_body w self q p)) !! x = fs p !! x.
Proof.
  unfold create_video_body. unfold bind at 1.
  pose proof (generate_explanation_state w self q p) as Hg.
  destruct (generate_explanation w self q p) as [p1 [steps|e]];
    cbn [fst] in Hg |- *; subst p1; [|reflexivity].
  unfold bind at 1.
  pose proof (Scene_render_keeps_x (mkMathScene steps)
                (with_call (chat_call q) p)) as Hr.
  destruct (Scene_render w (mkMathScene steps) _) as [p2 [[]|e]];
    cbn [fst fs with_call] in Hr |- *; [|exact Hr].
  unfold bind at 1.
  pose proof (create_narration_keeps_x steps p2) as Hn.
  destruct (create_narration w self steps p2) as [p3 [a|e]] eqn:Hnarr;
    cbn [fst] in Hn |- *; [|congruence].
  pose proof (create_narration_returns _ _ _ _ _ _ Hnarr) as ->.
  run_monad.
  pose proof (run_keeps_x (fs p3)) as Hm.
  destruct (run w mux_argv (fs p3)) as [files [code|e]];
    cbn [fst fs with_fs] in Hm |- *; [|congruence].
  destruct (files !! "math_scene.mp4"); cbn [fst fs with_fs]; [|congruence].
  destruct (delete "math_scene.mp4" files !! "narration.mp3");
    cbn [fst fs with_fs]; rewrite ?lookup_delete_ne by congruence; congruence.
Qed.

(** [create_video] itself touches only its two intermediate files: a file
    under any other name that the engine, the speech client and the muxer
    leave alone has the same content, or is as absent, after the call as
    before, whether the call returns a path, returns [None] or lets an
    exception through.  In particular the final video is never removed. *)
Theorem create_video_keeps_other_files (p : Process) :
  fs (fst (create_video w self q p)) !! x = fs p !! x.
Proof.
  rewrite <- (create_video_body_keeps_x p).
  unfold create_video, try_except_Exception.
  destruct (create_video_body w self q p) as [p' [v|e]]; [reflexivity|].
  destruct (is_Exception e); reflexivity.
Qed.

End OtherFiles.

Lemma create_video_keeps_other_files_witness :
  fs (fst (create_video working_world sample_tutor "Solve x+1=2" with_notes))
    !! "notes.txt" = Some "homework".
Proof.
  rewrite (create_video_keeps_other_files working_world sample_tutor
             "Solve x+1=2" "notes.txt").
  - reflexivity.
  - discriminate.
  - discriminate.
  - intros tl [[]|e] files; cbn; [apply lookup_insert_ne; discriminate|].
    reflexivity.
  - intros audio files. cbn. apply lookup_insert_ne. discriminate.
  - intros files. cbn. apply lookup_insert_ne. discriminate.
Defined.

Lemma create_video_return_path (w : World) (self : MathTutor) (q : string)
  (p p' : Process) (path : string) :
  create_video w self q p = (p', Return (Some path)) ->
  path = "final_explanation.mp4".
Proof.
  unfold create_video, try_except_Exception.
  destruct (create_video_body w self q p) as [p'' [v|e]] eqn:Hbody;
    [|destruct (is_Exception e); discriminate].
  intros H. injection H as _ ->.
  destruct (create_video_body_return_inv _ _ _ _ _ _ Hbody)
    as (? & ? & ? & ? & ? & ? & _ & _ & _ & _ & _ & _ & _ & Hv).
  injection Hv as ->. reflexivity.
Qed.

(** Once the tutor is built and the question read, [main] has written the
    prompt and the status line, in that order and before any service is
    called, and it ends in one of three ways, decided by [create_video]: a
    returned path is announced as the created video, [None] as a failure,
    each with one more line, and an exception [create_video] lets through
    leaves [main] as well, with nothing more printed. *)
Theorem main_reports (w : World) (p p0 : Process) (tutor : MathTutor)
  (q : string) :
  MathTutor_init w p = (p0, Return tutor) ->
  input_line w = Return q ->
  match
    create_video w tutor q
      (with_output ("Generating video explanation..." +:+ LF)
         (with_call (CallInput "Enter your math question: ")
            (with_output "Enter your math question: " p0)))
  with
  | (p', Return (Some _)) =>
      main w p
      = (with_output
           ("Explanation video created: final_explanation.mp4" +:+ LF) p',
         Return tt)
  | (p', Return None) =>
      main w p
      = (with_output ("Failed to create explanation video" +:+ LF) p',
         Return tt)
  | (p', Raise e) => main w p = (p', Raise e)
  end.
Proof.
  intros Hinit Hinput.
  assert (main w p
          = bind (create_video w tutor q)
              (fun video_path =>
                 if py_bool video_path then
                   print ("Explanation video created: " +:+ py_str video_path)
                 else print "Failed to create explanation video")
              (with_output ("Generating video explanation..." +:+ LF)
                 (with_call (CallInput "Enter your math question: ")
                    (with_output "Enter your math question: " p0)))) as ->.
  { unfold main. unfold bind at 1. rewrite Hinit.
    unfold bind at 1, input. rewrite Hinput. reflexivity. }
  unfold bind.
  destruct (create_video w tutor q _) as [p' [[path|]|e]] eqn:Hvideo.
  - pose proof (create_video_return_path _ _ _ _ _ _ Hvideo) as ->.
    reflexivity.
  - reflexivity.
  - reflexivity.
Qed.

Lemma main_reports_witness :
  stdout (fst (main working_world fresh))
  = ["Enter your math question: ";
     "Generating video explanation..." +:+ LF;
     "Explanation video created: final_explanation.mp4" +:+ LF].
Proof.
  pose proof (main_reports working_world fresh
                (with_api_key (Some "sk-test") fresh) sample_tutor
                "Solve x+1=2" eq_refl eq_refl) as H.
  remember (create_video working_world sample_tutor "Solve x+1=2"
              (with_output ("Generating video explanation..." +:+ LF)
                 (with_call (CallInput "Enter your math question: ")
                    (with_output "Enter your math question: "
                       (with_api_key (Some "sk-test") fresh)))))
    as r eqn:Hr.
  assert (snd r = Return (Some "final_explanation.mp4")
          /\ stdout (fst r)
             = ["Enter your math question: ";
                "Generating video explanation..." +:+ LF]) as [Hsnd Hout].
  { subst r. split; vm_compute; reflexivity. }
  destruct r as [p' res]. cbn [fst snd] in Hsnd, Hout. subst res.
  rewrite H. cbn [fst stdout with_output]. rewrite Hout. reflexivity.
Defined.

(** ** Which keys of a step are read *)

Lemma for_loop_ext {S L X} (body : L -> X -> M S L) (xs ys : list X) :
  Forall2 (fun a b => forall l s, body l a s = body l b s) xs ys ->
  forall l s, for_loop body xs l s = for_loop body ys l s.
Proof.
  induction 1 as [|a b xs ys Hab _ IH]; intros l s; [reflexivity|].
  cbn [for_loop]. unfold bind. rewrite Hab.
  destruct (body l b s) as [s' [l'|e]]; [apply IH | reflexivity].
Qed.

Lemma generate_items_ext {A B} (f : A -> result B) (xs ys : list A) :
  Forall2 (fun a b => f a = f b) xs ys ->
  generate_items f xs = generate_items f ys.
Proof.
  induction 1 as [|a b xs ys Hab _ IH]; [reflexivity|].
  cbn [generate_items]. rewrite Hab, IH. reflexivity.
Qed.

(** [construct] reads nothing of a step but its [equation] and its
    [explanation]: two sequences whose items agree, place by place, on what
    subscripting with these two keys gives (the value or the exception) are
    rendered alike.  Further keys, the order of the keys and the narration
    make no difference. *)
Theorem construct_reads_two_keys (xs ys : list pyval) (sc : Scene) :
  Forall2 (fun a b =>
             py_getitem a "equation" = py_getitem b "equation"
             /\ py_getitem a "explanation" = py_getitem b "explanation")
    xs ys ->
  construct (mkMathScene (PList xs)) sc = construct (mkMathScene (PList ys)) sc.
Proof.
  intros Hsame. unfold construct. cbn [steps py_iter].
  unfold bind at 1 3, lift. unfold bind at 1 2.
  rewrite (for_loop_ext construct_step xs ys); [reflexivity|].
  eapply Forall2_impl; [exact Hsame|].
  intros a b [Heq Hex] l s. unfold construct_step.
  unfold bind at 1 3. rewrite Heq. unfold lift at 1 3.
  destruct (py_getitem b "equation") as [tex|e]; [|reflexivity].
  unfold bind at 1 2. rewrite Hex. reflexivity.
Qed.

Lemma construct_reads_two_keys_witness :
  construct
    (mkMathScene
       (PList [PDict [("hint", PInt 3); ("explanation", PStr "subtract 1");
                      ("equation", PStr "x+1=2")]]))
    (mkScene [])
  = construct (mkMathScene (steps_value [sample_step])) (mkScene []).
Proof.
  apply (construct_reads_two_keys
           [PDict [("hint", PInt 3); ("explanation", PStr "subtract 1");
                   ("equation", PStr "x+1=2")]]
           [step_value sample_step]).
  repeat constructor.
Defined.

(** The narration text depends on nothing of a step but what subscripting
    it with [narration] gives. *)
Theorem full_narration_reads_one_key (xs ys : list pyval) :
  Forall2 (fun a b => py_getitem a "narration" = py_getitem b "narration")
    xs ys ->
  full_narration (PList xs) = full_narration (PList ys).
Proof.
  intros Hsame. unfold full_narration. cbn [py_iter].
  rewrite (generate_items_ext _ xs ys Hsame). reflexivity.
Qed.

Lemma full_narration_reads_one_key_witness :
  full_narration
    (PList [PDict [("narration", PStr "We subtract one from both sides.")]])
  = full_narration (steps_value [sample_step]).
Proof.
  apply (full_narration_reads_one_key
           [PDict [("narration", PStr "We subtract one from both sides.")]]
           [step_value sample_step]).
  repeat constructor.
Defined.

(** ** A faulty step, end to end *)

(** When the parsed sequence holds an object without an [equation] key,
    [create_video] returns [None] and prints the line of that [KeyError].
    The engine has been given the steps before the faulty one, without the
    closing pause, and neither the speech service nor the muxer is called. *)
Theorem missing_equation_gives_none (w : World) (self : MathTutor)
  (q : string) (p p1 : Process) (l : list Step)
  (items : list (string * pyval)) (rest : list pyval) :
  generate_explanation w self q p
  = (p1, Return (PList (map step_value l ++ PDict items :: rest))) ->
  dict_get items "equation" = None ->
  snd (create_video w self q p) = Return None
  /\ stdout (fst (create_video w self q p))
     = stdout p ++ ["Error creating video: 'equation'" +:+ LF]
  /\ exists tl,
       tl ++ [Wait 2] = rendered (steps_value l)
       /\ calls (fst (create_video w self q p))
          = calls p ++ [chat_call q; CallRender tl].
Proof.
  intros Hg Hmissing.
  set (v := PList (map step_value l ++ PDict items :: rest)) in *.
  pose proof (construct_stops_at l (PDict items) rest _
                (construct_step_missing_equation items Hmissing)) as Hc.
  fold v in Hc.
  destruct (Scene_render w (mkMathScene v) p1) as [p2 r2] eqn:Hr.
  assert (r2 = Raise (Exn KeyError "'equation'")) as ->.
  { revert Hr. unfold Scene_render. rewrite Hc.
    destruct (engine_output w _ _ _) as [files enc].
    intros H. injection H as _ <-. reflexivity. }
  pose proof (Scene_render_calls _ _ _ _ _ Hr) as Hcalls.
  pose proof (Scene_render_stdout w (mkMathScene v) p1) as Hout.
  rewrite Hr in Hout. cbn [fst] in Hout.
  destruct (generate_explanation_return_inv _ _ _ _ _ _ Hg) as (Hp1 & _).
  destruct (try_block_propagates w self q p p1 p2 p2 v "" ∅ 0
              (Exn KeyError "'equation'")) as (_ & Hbody & _).
  rewrite (create_video_on_raise w self q _ _ _ (Hbody Hg Hr)).
  cbn [is_Exception exn_class_of fst snd stdout calls with_output exn_str].
  split; [reflexivity|]. split.
  - rewrite Hout, Hp1. reflexivity.
  - exists (loop_events 3 l). split; [rewrite rendered_steps; reflexivity|].
    rewrite Hcalls, Hp1. cbn [calls with_call]. rewrite <- app_assoc.
    unfold rendered. rewrite Hc. reflexivity.
Qed.

Lemma missing_equation_gives_none_witness :
  snd (create_video faulty_step_world sample_tutor "Solve x+1=2" fresh)
  = Return None
  /\ stdout (fst (create_video faulty_step_world sample_tutor
                    "Solve x+1=2" fresh))
     = ["Error creating video: 'equation'" +:+ LF].
Proof.
  destruct (missing_equation_gives_none faulty_step_world sample_tutor
              "Solve x+1=2" fresh
              (with_call (chat_call "Solve x+1=2") fresh)
              [sample_step] [("explanation", PStr "so x = 1")] [])
    as (Hnone & Hout & _).
  - reflexivity.
  - reflexivity.
  - split; assumption.
Defined.
